(** * Vercel preview-deployment script: a shallow embedding

    [src/vercel-deploy.ts] is embedded as a program in a small monad that
    threads the console, the trace of requests sent to the platform and the
    platform's own state, and that can end in a thrown exception or in
    [process.exit].  The selection pipeline of [src/vercel.sh] (a jq
    program) is embedded over a small JSON value type. *)

From Stdlib Require Import String Ascii List ZArith Bool.
Import ListNotations.

Open Scope list_scope.
Open Scope string_scope.

(** ** JavaScript values used by the script *)

Module JS.

(** A string is truthy unless it is empty. *)
Definition truthy (s : string) : bool := negb (s =? "").

(** [string | undefined | null]: absent values are falsy. *)
Definition opt_truthy (o : option string) : bool :=
  match o with
  | Some s => truthy s
  | None => false
  end.

(** [x || null] at type [string | undefined]. *)
Definition or_null (o : option string) : option string :=
  if opt_truthy o then o else None.

(** [s.includes(sub)]: [sub] occurs in [s] at some position. *)
Fixpoint includes (s sub : string) : bool :=
  if String.prefix sub s then true
  else match s with
       | EmptyString => false
       | String _ s' => includes s' sub
       end.

(** A [string | null] used as a [string] in a branch where it is truthy;
    the default is never observed there. *)
Definition narrow (o : option string) : string :=
  match o with
  | Some s => s
  | None => ""
  end.

(** [`${x}`] for a value that may be undefined. *)
Definition interpolate (o : option string) : string :=
  match o with
  | Some s => s
  | None => "undefined"
  end.

(** [c] lower-cased when it is one of A..Z; the instance of
    [toLowerCase] used on concrete (ASCII) inputs. *)
Definition ascii_lower (c : ascii) : ascii :=
  let n := nat_of_ascii c in
  if andb (Nat.leb 65 n) (Nat.leb n 90) then ascii_of_nat (n + 32) else c.

Fixpoint ascii_toLowerCase (s : string) : string :=
  match s with
  | EmptyString => EmptyString
  | String c s' => String (ascii_lower c) (ascii_toLowerCase s')
  end.

End JS.

(** ** Data exchanged with the platform *)

Record Meta := { githubCommitRef : option string }.

Record Deployment := {
  d_uid : string;
  d_name : option string;
  d_state : option string;
  d_meta : option Meta
}.

Record EnvVar := {
  e_id : string;
  e_key : string;
  e_value : string
}.

Record GetDeploymentsResponse := { deployments : option (list Deployment) }.

Record GetEnvironmentVariablesResponse := { envs : option (list EnvVar) }.

Record CreateDeploymentResponse := {
  r_url : option string;
  r_uid : option string
}.

(** Request body of create/edit environment variable. *)
Record EnvRequestBody := {
  b_key : string;
  b_value : string;
  b_type : string;
  b_target : list string
}.

Record GitSource := { gs_type : string; gs_ref : string }.

(** Request body of [deployments.createDeployment]: a new deployment built
    from a git ref, or a redeploy that refers to an existing deployment. *)
Inductive DeploymentRequestBody :=
| NewDeployment (name project target : string) (gitSource : GitSource)
| Redeploy (deploymentId target : string).

Inductive Request :=
| GetDeployments (projectId : string) (limit : Z)
| GetEnvironmentVariables (idOrName : string)
| CreateEnvironmentVariable (idOrName : string) (requestBody : EnvRequestBody)
| EditEnvironmentVariable (idOrName id : string) (requestBody : EnvRequestBody)
| CreateDeployment (requestBody : DeploymentRequestBody).

(** An awaited SDK promise either fulfils with a value or rejects; the
    rejection carries the text that [`${err}`] renders. *)
Inductive Settled (A : Type) :=
| Fulfilled (a : A)
| Rejected (err : string).
Arguments Fulfilled {A} a.
Arguments Rejected {A} err.

(** The SDK client. *)
Record Vercel := { bearerToken : string }.

(** The platform behind the SDK, as a state machine over [P]: each
    operation answers from the current state and moves to the next one. *)
Record Platform (P : Type) := {
  deployments_getDeployments :
    Vercel -> string -> Z -> P -> Settled GetDeploymentsResponse * P;
  projects_getEnvironmentVariables :
    Vercel -> string -> P -> Settled GetEnvironmentVariablesResponse * P;
  projects_createEnvironmentVariable :
    Vercel -> string -> EnvRequestBody -> P -> Settled unit * P;
  projects_editEnvironmentVariable :
    Vercel -> string -> string -> EnvRequestBody -> P -> Settled unit * P;
  deployments_createDeployment :
    Vercel -> DeploymentRequestBody -> P -> Settled CreateDeploymentResponse * P
}.
Arguments deployments_getDeployments {P}.
Arguments projects_getEnvironmentVariables {P}.
Arguments projects_createEnvironmentVariable {P}.
Arguments projects_editEnvironmentVariable {P}.
Arguments deployments_createDeployment {P}.

(** ** The process: console, request trace, platform state *)

Inductive Stream := Stdout | Stderr.

Record World (P : Type) := mkWorld {
  platform : P;
  console : list (Stream * string);
  calls : list Request
}.
Arguments mkWorld {P}.
Arguments platform {P}.
Arguments console {P}.
Arguments calls {P}.

(** How a computation ends: with a value, with a thrown exception, or with
    the process terminated by [exit(code)]. *)
Inductive Outcome (A : Type) :=
| Ret (a : A)
| Throw (err : string)
| Exit (code : Z).
Arguments Ret {A} a.
Arguments Throw {A} err.
Arguments Exit {A} code.

Definition M (P A : Type) : Type := World P -> Outcome A * World P.

Definition ret {P A} (a : A) : M P A := fun w => (Ret a, w).

Definition bind {P A B} (m : M P A) (k : A -> M P B) : M P B :=
  fun w =>
    match m w with
    | (Ret a, w') => k a w'
    | (Throw err, w') => (Throw err, w')
    | (Exit code, w') => (Exit code, w')
    end.

Notation "x <- m ;; k" := (bind m (fun x => k))
  (at level 61, m at next level, right associativity).
Notation "m ;; k" := (bind m (fun _ => k))
  (at level 61, right associativity).

(** [try { body } catch (err) { handler }]: only a thrown exception reaches
    the handler; a terminated process stays terminated. *)
Definition try_catch {P A} (body : M P A) (handler : string -> M P A) : M P A :=
  fun w =>
    match body w with
    | (Throw err, w') => handler err w'
    | r => r
    end.

(** [for (const x of xs) body(x)]. *)
Fixpoint for_of {P A} (xs : list A) (body : A -> M P unit) : M P unit :=
  match xs with
  | [] => ret tt
  | x :: xs' => body x ;; for_of xs' body
  end.

Definition console_log {P} (line : string) : M P unit :=
  fun w => (Ret tt, mkWorld (platform w) (console w ++ [(Stdout, line)])%list (calls w)).

Definition console_error {P} (line : string) : M P unit :=
  fun w => (Ret tt, mkWorld (platform w) (console w ++ [(Stderr, line)])%list (calls w)).

Definition exit {P A} (code : Z) : M P A := fun w => (Exit code, w).

(** [await] of an SDK call: the request is recorded, the platform answers,
    a rejection is thrown. *)
Definition await {P A} (req : Request) (answer : P -> Settled A * P) : M P A :=
  fun w =>
    let (r, p') := answer (platform w) in
    let w' := mkWorld p' (console w) (calls w ++ [req])%list in
    match r with
    | Fulfilled a => (Ret a, w')
    | Rejected err => (Throw err, w')
    end.

(** ** [src/vercel-deploy.ts] *)

Definition esc : string := String (ascii_of_nat 27) EmptyString.

Module colors.
Definition red : string := esc ++ "[0;31m".
Definition green : string := esc ++ "[0;32m".
Definition yellow : string := esc ++ "[1;33m".
Definition reset : string := esc ++ "[0m".
End colors.

(** The lines the three loggers print. *)
Definition info_line (message : string) : string :=
  colors.green ++ "[INFO]" ++ colors.reset ++ " " ++ message.

Definition warn_line (message : string) : string :=
  colors.yellow ++ "[WARN]" ++ colors.reset ++ " " ++ message.

Definition error_line (message : string) : string :=
  colors.red ++ "[ERROR]" ++ colors.reset ++ " " ++ message.

Definition requiredVars : list string :=
  ["VERCEL_TOKEN"; "VERCEL_PROJECT_ID"; "VERCEL_ORG_ID"; "FE_BRANCH"].

Record Config := {
  token : string;
  projectId : string;
  orgId : string;
  branch : string;
  targetApiUrl : string
}.

Definition viteApiUrlBody (targetApiUrl : string) : EnvRequestBody :=
  {| b_key := "VITE_API_URL";
     b_value := targetApiUrl;
     b_type := "plain";
     b_target := ["preview"] |}.

Section Script.

Context {P : Type}.

(** [String.prototype.toLowerCase]. *)
Variable toLowerCase : string -> string.

(** The platform the SDK talks to. *)
Variable vercel_com : Platform P.

(** [process.env], read-only during a run. *)
Variable process_env : string -> option string.

Definition log (message : string) : M P unit :=
  console_log (info_line message).

Definition warn (message : string) : M P unit :=
  console_log (warn_line message).

Definition error (message : string) : M P unit :=
  console_error (error_line message) ;;
  exit 1.

Definition validateEnvironment : M P unit :=
  for_of requiredVars (fun varName =>
    if negb (JS.opt_truthy (process_env varName))
    then error ("Missing required environment variable: " ++ varName)
    else ret tt).

(** [process.env.X!]: the assertion has no run-time effect; by the time a
    field is read [validateEnvironment] has ended the process if the
    variable is not set, so the default below is never observed. *)
Definition env_get (varName : string) : string :=
  match process_env varName with
  | Some s => s
  | None => ""
  end.

Definition getConfig : M P Config :=
  validateEnvironment ;;
  ret {| token := env_get "VERCEL_TOKEN";
         projectId := env_get "VERCEL_PROJECT_ID";
         orgId := env_get "VERCEL_ORG_ID";
         branch := env_get "FE_BRANCH";
         targetApiUrl :=
           "https://api.pr-" ++ JS.interpolate (process_env "FE_BRANCH")
             ++ ".deploy-preview.mrdibre.com" |}.

Definition initializeVercel (token : string) : Vercel :=
  {| bearerToken := token |}.

(** The two conjuncts of the callback given to [find]. *)
Definition matchesBranch (branch : string) (deployment : Deployment) : bool :=
  match option_map githubCommitRef (d_meta deployment) with
  | Some (Some ref) => (ref =? branch)
  | _ => false
  end
  || match d_name deployment with
     | Some name => JS.includes (toLowerCase name) (toLowerCase branch)
     | None => false
     end.

Definition isActiveState (deployment : Deployment) : bool :=
  match d_state deployment with
  | Some state => (state =? "READY") || (state =? "BUILDING")
  | None => false
  end.

Definition checkExistingDeployment
    (vercel : Vercel) (projectId branch : string) : M P (option string) :=
  try_catch
    (log "Checking for existing deployments..." ;;
     response <- await (GetDeployments projectId 50)
                   (deployments_getDeployments vercel_com vercel projectId 50) ;;
     match deployments response with
     | None => ret None
     | Some deployments =>
         let existingDeployment :=
           find (fun deployment =>
                   matchesBranch branch deployment && isActiveState deployment)
                deployments in
         ret (JS.or_null (option_map d_uid existingDeployment))
     end)
    (fun err =>
       error ("Failed to fetch deployments: " ++ err) ;;
       ret None).

Definition getEnvVarId (vercel : Vercel) (projectId : string) : M P (option string) :=
  try_catch
    (log "Fetching VITE_API_URL environment variable ID..." ;;
     response <- await (GetEnvironmentVariables projectId)
                   (projects_getEnvironmentVariables vercel_com vercel projectId) ;;
     match envs response with
     | None => ret None
     | Some envs =>
         let viteApiUrlEnv := find (fun env => e_key env =? "VITE_API_URL") envs in
         ret (JS.or_null (option_map e_id viteApiUrlEnv))
     end)
    (fun err =>
       error ("Failed to fetch environment variables: " ++ err) ;;
       ret None).

Definition updateEnvVar
    (vercel : Vercel) (projectId : string) (envVarId : option string)
    (targetApiUrl : string) : M P unit :=
  try_catch
    (if negb (JS.opt_truthy envVarId) then
       warn "VITE_API_URL environment variable not found, creating new one..." ;;
       await (CreateEnvironmentVariable projectId (viteApiUrlBody targetApiUrl))
         (projects_createEnvironmentVariable vercel_com vercel projectId
            (viteApiUrlBody targetApiUrl)) ;;
       log "Created new VITE_API_URL environment variable"
     else
       let id := JS.narrow envVarId in
       log ("Updating VITE_API_URL environment variable (ID: " ++ id ++ ")...") ;;
       await (EditEnvironmentVariable projectId id (viteApiUrlBody targetApiUrl))
         (projects_editEnvironmentVariable vercel_com vercel projectId id
            (viteApiUrlBody targetApiUrl)) ;;
       log ("Updated VITE_API_URL to: " ++ targetApiUrl))
    (fun err => error ("Failed to update environment variable: " ++ err)).

Definition newDeploymentBody (projectId branch : string) : DeploymentRequestBody :=
  NewDeployment ("pr-" ++ branch) projectId "preview"
    {| gs_type := "github"; gs_ref := branch |}.

Definition createDeployment (vercel : Vercel) (projectId branch : string) : M P unit :=
  try_catch
    (log "Creating new deployment..." ;;
     response <- await (CreateDeployment (newDeploymentBody projectId branch))
                   (deployments_createDeployment vercel_com vercel
                      (newDeploymentBody projectId branch)) ;;
     if JS.opt_truthy (r_url response) then
       log "New deployment created successfully!" ;;
       log ("Deployment URL: https://" ++ JS.interpolate (r_url response)) ;;
       log ("Deployment ID: " ++ JS.interpolate (r_uid response))
     else
       log "Deployment triggered successfully")
    (fun err => error ("Failed to create new deployment: " ++ err)).

Definition redeployExisting (vercel : Vercel) (existingDeploymentId : string) : M P unit :=
  try_catch
    (log ("Redeploying existing deployment (ID: " ++ existingDeploymentId ++ ")...") ;;
     response <- await (CreateDeployment (Redeploy existingDeploymentId "preview"))
                   (deployments_createDeployment vercel_com vercel
                      (Redeploy existingDeploymentId "preview")) ;;
     if JS.opt_truthy (r_url response) then
       log "Redeployment triggered successfully!" ;;
       log ("Deployment URL: https://" ++ JS.interpolate (r_url response)) ;;
       log ("Deployment ID: " ++ JS.interpolate (r_uid response))
     else
       log "Redeployment triggered successfully")
    (fun _ =>
       warn "Failed to redeploy existing deployment, creating new one instead..." ;;
       config <- getConfig ;;
       let vercelClient := initializeVercel (token config) in
       createDeployment vercelClient (projectId config) (branch config)).

Definition main : M P unit :=
  try_catch
    (config <- getConfig ;;
     log ("Starting Vercel deployment management for branch: " ++ branch config) ;;
     log ("Target API URL: " ++ targetApiUrl config) ;;
     let vercel := initializeVercel (token config) in
     existingDeployment <-
       checkExistingDeployment vercel (projectId config) (branch config) ;;
     envVarId <- getEnvVarId vercel (projectId config) ;;
     updateEnvVar vercel (projectId config) envVarId (targetApiUrl config) ;;
     (if JS.opt_truthy existingDeployment then
        log ("Found existing deployment: " ++ JS.narrow existingDeployment) ;;
        redeployExisting vercel (JS.narrow existingDeployment)
      else
        log ("No existing deployment found for branch: " ++ branch config) ;;
        createDeployment vercel (projectId config) (branch config)) ;;
     log "Vercel deployment process completed successfully!")
    (fun err => error ("Deployment process failed: " ++ err)).

End Script.

(** ** [src/vercel.sh]: the jq selection of [check_existing_deployment] *)

Module Jq.

#[warnings="-register-all"]
Inductive json :=
| JNull
| JBool (b : bool)
| JNumber (n : Z)
| JString (s : string)
| JArray (items : list json)
| JObject (fields : list (string * json)).

Inductive jq_error :=
| CannotIndex (v : json) (key : string)
| CannotMatch (v : json)
| InvalidRegex (re : string).

(** What a filter does on one input: the values it emits, in order, and
    the error that stopped it, if any. *)
Definition result : Type := list json * option jq_error.

Definition filter : Type := json -> result.

Definition truthy (v : json) : bool :=
  match v with
  | JNull | JBool false => false
  | _ => true
  end.

(** Fields of a parsed object (keys are unique). *)
Fixpoint lookup (key : string) (fields : list (string * json)) : json :=
  match fields with
  | [] => JNull
  | (k, v) :: rest => if k =? key then v else lookup key rest
  end.

(** Run [g] on each value in turn; the first error stops everything. *)
Fixpoint for_each (vs : list json) (g : filter) : result :=
  match vs with
  | [] => ([], None)
  | v :: vs' =>
      match g v with
      | (out, Some e) => (out, Some e)
      | (out, None) =>
          let (out', e') := for_each vs' g in ((out ++ out')%list, e')
      end
  end.

(** [f | g] *)
Definition pipe (f g : filter) : filter :=
  fun v =>
    let (vs, stopped) := f v in
    match for_each vs g with
    | (out, Some e) => (out, Some e)
    | (out, None) => (out, stopped)
    end.

(** [.key] *)
Definition field (key : string) : filter :=
  fun v =>
    match v with
    | JObject fields => ([lookup key fields], None)
    | JNull => ([JNull], None)
    | _ => ([], Some (CannotIndex v key))
    end.

(** [.[]?] *)
Definition iterate_opt : filter :=
  fun v =>
    match v with
    | JArray items => (items, None)
    | JObject fields => (map snd fields, None)
    | _ => ([], None)
    end.

(** [f == "s"] *)
Definition eq_string (f : filter) (s : string) : filter :=
  pipe f (fun a =>
    ([JBool match a with JString t => (t =? s) | _ => false end], None)).

(** [f or g]: [g] is run only where [f] is falsy. *)
Definition or (f g : filter) : filter :=
  fun v =>
    pipe f (fun a =>
      if truthy a then ([JBool true], None)
      else pipe g (fun b => ([JBool (truthy b)], None)) v) v.

(** [select(f)] is [if f then . else empty end]. *)
Definition select (f : filter) : filter :=
  fun v => pipe f (fun c => if truthy c then ([v], None) else ([], None)) v.

Section Filter.

(** Regular-expression search of [re] in a string; [None] when [re] is
    not a regular expression. *)
Variable regex_test : string -> string -> option bool.

(** [test(re)]: the input has to be a string. *)
Definition test (re : string) : filter :=
  fun v =>
    match v with
    | JString s =>
        match regex_test s re with
        | Some b => ([JBool b], None)
        | None => ([], Some (InvalidRegex re))
        end
    | _ => ([], Some (CannotMatch v))
    end.

(** The jq program, with [|] binding weaker than [or]:
<<
    .deployments[]? |
    select(.meta.githubCommitRef == $branch or .name | test($branch)) |
    select(.state == "READY" or .state == "BUILDING") |
    .uid
>> *)
Definition check_existing_deployment_jq (branch : string) : filter :=
  pipe (pipe (field "deployments") iterate_opt)
    (pipe (select
             (pipe (or (eq_string (pipe (field "meta") (field "githubCommitRef"))
                          branch)
                       (field "name"))
                   (test branch)))
       (pipe (select (or (eq_string (field "state") "READY")
                         (eq_string (field "state") "BUILDING")))
             (field "uid"))).

(** [jq -r ... | head -1]: the first value printed, if any. *)
Definition check_existing_deployment (response : json) (FE_BRANCH : string)
  : option json :=
  hd_error (fst (check_existing_deployment_jq FE_BRANCH response)).

(** For comparison only, not in the script: the same program with the
    second disjunct in parentheses,
    [select(.meta.githubCommitRef == $branch or (.name | test($branch)))]. *)
Definition parenthesised_jq (branch : string) : filter :=
  pipe (pipe (field "deployments") iterate_opt)
    (pipe (select
             (or (eq_string (pipe (field "meta") (field "githubCommitRef")) branch)
                 (pipe (field "name") (test branch))))
       (pipe (select (or (eq_string (field "state") "READY")
                         (eq_string (field "state") "BUILDING")))
             (field "uid"))).

End Filter.

(** The JSON of a listing response that the SDK reads a
    [GetDeploymentsResponse] from. *)
Definition opt_field (key : string) (o : option string) : list (string * json) :=
  match o with
  | Some s => [(key, JString s)]
  | None => []
  end.

Definition json_of_deployment (d : Deployment) : json :=
  JObject ([("uid", JString (d_uid d))]
           ++ opt_field "name" (d_name d)
           ++ opt_field "state" (d_state d)
           ++ match d_meta d with
              | Some m => [("meta", JObject (opt_field "githubCommitRef" (githubCommitRef m)))]
              | None => []
              end)%list.

Definition json_of_response (r : GetDeploymentsResponse) : json :=
  JObject match deployments r with
          | Some ds => [("deployments", JArray (map json_of_deployment ds))]
          | None => []
          end.

(** A filter run that emits exactly one value, which satisfies [Q], or
    stops with an error before emitting anything. *)
Definition one_or_stop (Q : json -> Prop) (r : result) : Prop :=
  (exists a, r = ([a], None) /\ Q a) \/ (exists e, r = ([], Some e)).

(** A filter run that stops with an error before emitting anything. *)
Definition stops (r : result) : Prop := exists e, r = ([], Some e).

Definition is_bool (v : json) : Prop := exists b, v = JBool b.

End Jq.

(** ** Vocabulary of the statements *)

(** All four required variables are set and non-empty. *)
Definition env_valid (process_env : string -> option string) : bool :=
  forallb (fun varName => JS.opt_truthy (process_env varName)) requiredVars.

(** The first required variable, in the order of [requiredVars], that is
    missing or empty. *)
Definition firstMissing (process_env : string -> option string) : option string :=
  find (fun varName => negb (JS.opt_truthy (process_env varName))) requiredVars.

(** The configuration [getConfig] builds from a valid environment. *)
Definition config_of_env (process_env : string -> option string) : Config :=
  {| token := env_get process_env "VERCEL_TOKEN";
     projectId := env_get process_env "VERCEL_PROJECT_ID";
     orgId := env_get process_env "VERCEL_ORG_ID";
     branch := env_get process_env "FE_BRANCH";
     targetApiUrl :=
       "https://api.pr-" ++ JS.interpolate (process_env "FE_BRANCH")
         ++ ".deploy-preview.mrdibre.com" |}.

(** [sub] occurs in [s]. *)
Definition Substring (sub s : string) : Prop :=
  exists pre post, s = pre ++ sub ++ post.

Section Selection.

Variable toLowerCase : string -> string.

(** The branch reference equals [B], or the display name contains [B]
    when both are lower-cased. *)
Definition BranchMatch (B : string) (d : Deployment) : Prop :=
  (exists m, d_meta d = Some m /\ githubCommitRef m = Some B)
  \/ (exists n, d_name d = Some n /\ Substring (toLowerCase B) (toLowerCase n)).

Definition ActiveState (d : Deployment) : Prop :=
  d_state d = Some "READY" \/ d_state d = Some "BUILDING".

Definition Selectable (B : string) (d : Deployment) : Prop :=
  BranchMatch B d /\ ActiveState d.

(** What [checkExistingDeployment] computes from a listing response. *)
Definition existingDeploymentIn (branch : string)
    (response : GetDeploymentsResponse) : option string :=
  match deployments response with
  | None => None
  | Some ds =>
      JS.or_null (option_map d_uid
        (find (fun d => matchesBranch toLowerCase branch d && isActiveState d) ds))
  end.

End Selection.

(** What [getEnvVarId] computes from a listing response. *)
Definition envVarIdIn (response : GetEnvironmentVariablesResponse) : option string :=
  match envs response with
  | None => None
  | Some es =>
      JS.or_null (option_map e_id (find (fun env => e_key env =? "VITE_API_URL") es))
  end.

(** The request [updateEnvVar] sends for a given identifier, and the
    platform operation that answers it. *)
Definition upsertRequest (projectId : string) (envVarId : option string)
    (targetApiUrl : string) : Request :=
  if JS.opt_truthy envVarId
  then EditEnvironmentVariable projectId (JS.narrow envVarId) (viteApiUrlBody targetApiUrl)
  else CreateEnvironmentVariable projectId (viteApiUrlBody targetApiUrl).

Definition upsertAnswer {P} (vercel_com : Platform P) (vercel : Vercel)
    (projectId : string) (envVarId : option string) (targetApiUrl : string)
    : P -> Settled unit * P :=
  if JS.opt_truthy envVarId
  then projects_editEnvironmentVariable vercel_com vercel projectId (JS.narrow envVarId)
         (viteApiUrlBody targetApiUrl)
  else projects_createEnvironmentVariable vercel_com vercel projectId
         (viteApiUrlBody targetApiUrl).

(** The lines [updateEnvVar] prints before and after its request. *)
Definition upsertBefore (envVarId : option string) : Stream * string :=
  if JS.opt_truthy envVarId
  then (Stdout, info_line ("Updating VITE_API_URL environment variable (ID: "
                             ++ JS.narrow envVarId ++ ")..."))
  else (Stdout, warn_line "VITE_API_URL environment variable not found, creating new one...").

Definition upsertAfter (envVarId : option string) (targetApiUrl : string)
    : Stream * string :=
  if JS.opt_truthy envVarId
  then (Stdout, info_line ("Updated VITE_API_URL to: " ++ targetApiUrl))
  else (Stdout, info_line "Created new VITE_API_URL environment variable").

(** The lines printed for a fulfilled deployment request. *)
Definition deployedLines (created triggered : string)
    (response : CreateDeploymentResponse) : list (Stream * string) :=
  if JS.opt_truthy (r_url response)
  then [(Stdout, info_line created);
        (Stdout, info_line ("Deployment URL: https://" ++ JS.interpolate (r_url response)));
        (Stdout, info_line ("Deployment ID: " ++ JS.interpolate (r_uid response)))]
  else [(Stdout, info_line triggered)].

(** The step of [main] that looks the variable up and upserts it. *)
Definition upsertStep {P} (vercel_com : Platform P) (vercel : Vercel)
    (projectId targetApiUrl : string) : M P unit :=
  envVarId <- getEnvVarId vercel_com vercel projectId ;;
  updateEnvVar vercel_com vercel projectId envVarId targetApiUrl.

(** ** Concrete inputs *)

Module Sample.

(** A platform without state that gives fixed answers. *)
Definition stub
    (listed : Settled GetDeploymentsResponse)
    (variables : Settled GetEnvironmentVariablesResponse)
    (created edited : Settled unit)
    (deployed : DeploymentRequestBody -> Settled CreateDeploymentResponse)
  : Platform unit :=
  {| deployments_getDeployments := fun _ _ _ p => (listed, p);
     projects_getEnvironmentVariables := fun _ _ p => (variables, p);
     projects_createEnvironmentVariable := fun _ _ _ p => (created, p);
     projects_editEnvironmentVariable := fun _ _ _ _ p => (edited, p);
     deployments_createDeployment := fun _ body p => (deployed body, p) |}.

(** A platform that keeps the project's environment variables: a create
    adds a record, an edit rewrites the record with that identifier. *)
Definition store : Platform (list EnvVar) :=
  {| deployments_getDeployments :=
       fun _ _ _ s => (Fulfilled {| deployments := Some [] |}, s);
     projects_getEnvironmentVariables :=
       fun _ _ s => (Fulfilled {| envs := Some s |}, s);
     projects_createEnvironmentVariable :=
       fun _ _ body s =>
         (Fulfilled tt,
          s ++ [{| e_id := "env_" ++ b_key body;
                   e_key := b_key body;
                   e_value := b_value body |}])%list;
     projects_editEnvironmentVariable :=
       fun _ _ id body s =>
         (Fulfilled tt,
          map (fun e => if e_id e =? id
                        then {| e_id := id; e_key := b_key body; e_value := b_value body |}
                        else e) s);
     deployments_createDeployment :=
       fun _ _ s => (Fulfilled {| r_url := None; r_uid := None |}, s) |}.

Definition env (FE_BRANCH : option string) (varName : string) : option string :=
  if varName =? "VERCEL_TOKEN" then Some "tok"
  else if varName =? "VERCEL_PROJECT_ID" then Some "prj_1"
  else if varName =? "VERCEL_ORG_ID" then Some "team_1"
  else if varName =? "FE_BRANCH" then FE_BRANCH
  else None.

Definition client : Vercel := {| bearerToken := "tok" |}.

Definition start : World unit := mkWorld tt [] [].

Definition ready : Deployment :=
  {| d_uid := "dpl_1";
     d_name := Some "pr-feat";
     d_state := Some "READY";
     d_meta := Some {| githubCommitRef := Some "feat" |} |}.

Definition failed : Deployment :=
  {| d_uid := "dpl_0";
     d_name := Some "pr-feat";
     d_state := Some "ERROR";
     d_meta := Some {| githubCommitRef := Some "feat" |} |}.

Definition unnamed : Deployment :=
  {| d_uid := "";
     d_name := Some "PR-Feat";
     d_state := Some "BUILDING";
     d_meta := None |}.

Definition other_variable : EnvVar :=
  {| e_id := "env_0"; e_key := "NODE_ENV"; e_value := "preview" |}.

Definition api_url : EnvVar :=
  {| e_id := "env_1"; e_key := "VITE_API_URL"; e_value := "https://old.example" |}.

Definition api_url_without_id : EnvVar :=
  {| e_id := ""; e_key := "VITE_API_URL"; e_value := "https://old.example" |}.

Definition listing (ds : list Deployment) : Settled GetDeploymentsResponse :=
  Fulfilled {| deployments := Some ds |}.

Definition variables (es : list EnvVar) : Settled GetEnvironmentVariablesResponse :=
  Fulfilled {| envs := Some es |}.

Definition deployed_at (url : string) (_ : DeploymentRequestBody)
  : Settled CreateDeploymentResponse :=
  Fulfilled {| r_url := Some url; r_uid := Some "dpl_2" |}.

Definition valid_env : string -> option string := env (Some "feat").

Definition url : string := "https://api.pr-feat.deploy-preview.mrdibre.com".

Definition new_deployment : DeploymentRequestBody :=
  NewDeployment "pr-feat" "prj_1" "preview" {| gs_type := "github"; gs_ref := "feat" |}.

(** Redeploys are rejected, new deployments succeed. *)
Definition only_new (body : DeploymentRequestBody) : Settled CreateDeploymentResponse :=
  match body with
  | Redeploy _ _ => Rejected "Error: redeploy refused"
  | NewDeployment _ _ _ _ => Fulfilled {| r_url := Some "pr-feat.vercel.app"; r_uid := Some "dpl_2" |}
  end.

End Sample.

(** ** Vocabulary of the statements about whole runs *)

(** Requests that write an environment variable, and requests that ask for
    a deployment. *)
Definition is_env_mutation (q : Request) : bool :=
  match q with
  | CreateEnvironmentVariable _ _ | EditEnvironmentVariable _ _ _ => true
  | _ => false
  end.

Definition is_deployment_request (q : Request) : bool :=
  match q with
  | CreateDeployment _ => true
  | _ => false
  end.

Definition on_stdout (line : Stream * string) : Prop := fst line = Stdout.

(** The two lines [main] prints after reading the configuration. *)
Definition startLines (config : Config) : list (Stream * string) :=
  [(Stdout, info_line ("Starting Vercel deployment management for branch: "
                         ++ branch config));
   (Stdout, info_line ("Target API URL: " ++ targetApiUrl config))].

Definition checkingLine : Stream * string :=
  (Stdout, info_line "Checking for existing deployments...").

Definition fetchingLine : Stream * string :=
  (Stdout, info_line "Fetching VITE_API_URL environment variable ID...").

Definition completedLine : Stream * string :=
  (Stdout, info_line "Vercel deployment process completed successfully!").

(** How a run of [main] ended, what it sent and what it printed. *)
Record Run := {
  outcome : Outcome unit;
  sent : list Request;
  printed : list (Stream * string)
}.

(** The shapes a run can have: it returns after a fulfilled deployment
    request and the completion line, or it exits with status 1 right after
    one line on the error stream. *)
Definition well_formed_run (r : Run) : Prop :=
  length (sent r) <= 5
  /\ length (filter is_env_mutation (sent r)) <= 1
  /\ length (filter is_deployment_request (sent r)) <= 2
  /\ ((outcome r = Ret tt
       /\ Forall on_stdout (printed r)
       /\ last (printed r) (Stderr, "") = completedLine
       /\ exists body, last (sent r) (GetDeployments "" 0) = CreateDeployment body)
      \/ (outcome r = Exit 1
          /\ exists front message,
               printed r = (front ++ [(Stderr, error_line message)])%list
               /\ Forall on_stdout front)).

(** A platform that keeps the project's environment variables but gives
    the records it creates no identifier. *)
Definition store_without_ids : Platform (list EnvVar) :=
  {| deployments_getDeployments :=
       fun _ _ _ s => (Fulfilled {| deployments := Some [] |}, s);
     projects_getEnvironmentVariables :=
       fun _ _ s => (Fulfilled {| envs := Some s |}, s);
     projects_createEnvironmentVariable :=
       fun _ _ body s =>
         (Fulfilled tt,
          s ++ [{| e_id := ""; e_key := b_key body; e_value := b_value body |}])%list;
     projects_editEnvironmentVariable :=
       fun _ _ id body s =>
         (Fulfilled tt,
          map (fun e => if e_id e =? id
                        then {| e_id := id; e_key := b_key body; e_value := b_value body |}
                        else e) s);
     deployments_createDeployment :=
       fun _ _ s => (Fulfilled {| r_url := None; r_uid := None |}, s) |}.

(** An environment in which only the token is set. *)
Definition token_only_env (varName : string) : option string :=
  if varName =? "VERCEL_TOKEN" then Some "tok" else None.

(** A platform that lists one READY deployment of the branch and the
    variable, and fulfils every write. *)
Definition ready_platform : Platform unit :=
  Sample.stub (Sample.listing [Sample.failed; Sample.ready])
    (Sample.variables [Sample.other_variable; Sample.api_url])
    (Fulfilled tt) (Fulfilled tt) (Sample.deployed_at "pr-feat.vercel.app").

(** A platform that lists no deployment. *)
Definition empty_platform : Platform unit :=
  Sample.stub (Sample.listing []) (Sample.variables [Sample.api_url])
    (Fulfilled tt) (Fulfilled tt) (Sample.deployed_at "pr-feat.vercel.app").

(** ** [src/vercel.sh] *)

Module Sh.

Definition newline : ascii := ascii_of_nat 10.

Definition nl : string := String newline EmptyString.

(** What a command substitution [$(...)] keeps of the text written inside
    it: NUL bytes are dropped and all trailing newlines are removed. *)
Fixpoint drop_nul (s : string) : string :=
  match s with
  | EmptyString => EmptyString
  | String c s' =>
      if Nat.eqb (nat_of_ascii c) 0 then drop_nul s' else String c (drop_nul s')
  end.

Fixpoint strip_trailing_newlines (s : string) : string :=
  match s with
  | EmptyString => EmptyString
  | String c s' =>
      let rest := strip_trailing_newlines s' in
      if Ascii.eqb c newline && (rest =? "") then EmptyString else String c rest
  end.

Definition captured (out : string) : string :=
  strip_trailing_newlines (drop_nul out).

(** [head -1]: the text up to and including the first newline. *)
Fixpoint head_1 (s : string) : string :=
  match s with
  | EmptyString => EmptyString
  | String c s' =>
      if Ascii.eqb c newline then String c EmptyString else String c (head_1 s')
  end.

(** One invocation of [curl]. *)
Record Curl := {
  method : string;
  headers : list string;
  data : option string;
  url : string
}.

(** The shell: the remote side, the text on the current standard output,
    and the invocations of [curl] so far. *)
Record Shell (R : Type) := mkShell {
  remote : R;
  stdout : string;
  curls : list Curl
}.
Arguments mkShell {R}.
Arguments remote {R}.
Arguments stdout {R}.
Arguments curls {R}.

(** A command runs to its end or ends the shell with [exit code]. *)
Inductive Status (A : Type) :=
| Done (a : A)
| Exited (code : Z).
Arguments Done {A} a.
Arguments Exited {A} code.

Definition Cmd (R A : Type) : Type := Shell R -> Status A * Shell R.

Definition ret {R A} (a : A) : Cmd R A := fun s => (Done a, s).

Definition bind {R A B} (m : Cmd R A) (k : A -> Cmd R B) : Cmd R B :=
  fun s =>
    match m s with
    | (Done a, s') => k a s'
    | (Exited code, s') => (Exited code, s')
    end.

Declare Scope sh_scope.
Delimit Scope sh_scope with sh.
Notation "x <- m ;; k" := (bind m (fun x => k))
  (at level 61, m at next level, right associativity) : sh_scope.
Notation "m ;; k" := (bind m (fun _ => k))
  (at level 61, right associativity) : sh_scope.
Local Open Scope sh_scope.

Definition write {R} (text : string) : Cmd R unit :=
  fun s => (Done tt, mkShell (remote s) (stdout s ++ text) (curls s)).

Definition exit {R A} (code : Z) : Cmd R A := fun s => (Exited code, s).

(** [for x in "${xs[@]}"; do body; done] *)
Fixpoint for_in {R A} (xs : list A) (body : A -> Cmd R unit) : Cmd R unit :=
  match xs with
  | [] => ret tt
  | x :: xs' => body x ;; for_in xs' body
  end.

(** [$(command)]: the command runs in a subshell whose output is captured;
    what it does to the remote side stays done, an [exit] inside ends the
    subshell only.  The result is the captured text and the status. *)
Definition substitution {R A} (command : Cmd R A) : Cmd R (string * Z) :=
  fun s =>
    let (status, s') := command (mkShell (remote s) "" (curls s)) in
    (Done (captured (stdout s'),
           match status with
           | Done _ => 0%Z
           | Exited code => code
           end),
     mkShell (remote s') (stdout s) (curls s')).

(** [local name=$(command)]: [$?] afterwards is the status of [local],
    which is 0, whatever the command did. *)
Definition local_substitution {R A} (command : Cmd R A) : Cmd R (string * Z) :=
  captured_status <- substitution command ;;
  ret (fst captured_status, 0%Z).

(** [name=$(command)] under [set -e]: a status other than 0 ends the
    script with that status. *)
Definition assign_substitution {R A} (command : Cmd R A) : Cmd R string :=
  captured_status <- substitution command ;;
  if Z.eqb (snd captured_status) 0 then ret (fst captured_status)
  else exit (snd captured_status).

Definition RED : string := "\033[0;31m".
Definition GREEN : string := "\033[0;32m".
Definition YELLOW : string := "\033[1;33m".
Definition NC : string := "\033[0m".

Definition required_vars : list string :=
  ["VERCEL_TOKEN"; "VERCEL_PROJECT_ID"; "VERCEL_ORG_ID"; "FE_BRANCH"].

Definition VERCEL_API_BASE : string := "https://api.vercel.com".

(** [-d "$data"] is passed when [$data] is not empty. *)
Definition payload (data : string) : option string :=
  if data =? "" then None else Some data.

(** [.key // empty] *)
Definition field_or_empty (key : string) : Jq.filter :=
  fun v =>
    match v with
    | Jq.JObject fields =>
        if Jq.truthy (Jq.lookup key fields) then ([Jq.lookup key fields], None)
        else ([], None)
    | _ => ([], None)
    end.

(** [.envs[]? | select(.key == "VITE_API_URL") | .id] *)
Definition get_env_var_id_jq : Jq.filter :=
  Jq.pipe (Jq.pipe (Jq.field "envs") Jq.iterate_opt)
    (Jq.pipe (Jq.select (Jq.eq_string (Jq.field "key") "VITE_API_URL"))
       (Jq.field "id")).

Definition env_object (TARGET_API_URL : string) : Jq.json :=
  Jq.JObject [("key", Jq.JString "VITE_API_URL");
              ("value", Jq.JString TARGET_API_URL);
              ("target", Jq.JArray [Jq.JString "preview"]);
              ("type", Jq.JString "plain")].

Definition deploy_object (FE_BRANCH VERCEL_PROJECT_ID : string) : Jq.json :=
  Jq.JObject [("name", Jq.JString ("pr-" ++ FE_BRANCH));
              ("project", Jq.JString VERCEL_PROJECT_ID);
              ("target", Jq.JString "preview");
              ("gitSource", Jq.JObject [("type", Jq.JString "github");
                                        ("ref", Jq.JString FE_BRANCH)])].

Definition redeploy_object (existing_deployment_id : string) : Jq.json :=
  Jq.JObject [("deploymentId", Jq.JString existing_deployment_id);
              ("target", Jq.JString "preview")].

Section ShScript.

Context {R : Type}.

(** The programs the script runs, by what they print: [curl -s] on a
    request and the remote side, [echo] and [echo -e] on their argument
    (final newline included). *)
Variable curl : Curl -> R -> string * R.
Variable echo : string -> string.
Variable echo_e : string -> string.

(** [jq]: whether it is installed, the JSON values it reads from a text
    (up to the first one it cannot parse), the text it prints for a value
    (without the final newline), raw strings with [-r], and its
    regular-expression search. *)
Variable jq_installed : bool.
Variable jq_inputs : string -> list Jq.json.
Variable jq_print : Jq.json -> string.
Variable jq_print_raw : Jq.json -> string.
Variable regex_test : string -> string -> option bool.

(** The environment of the script: a variable that is not set expands to
    the empty string. *)
Variable environment : string -> option string.

Definition expand (name : string) : string :=
  match environment name with
  | Some value => value
  | None => ""
  end.

Definition VERCEL_TOKEN : string := expand "VERCEL_TOKEN".
Definition VERCEL_PROJECT_ID : string := expand "VERCEL_PROJECT_ID".
Definition FE_BRANCH : string := expand "FE_BRANCH".

Definition TARGET_API_URL : string :=
  "https://api.pr-" ++ FE_BRANCH ++ ".deploy-preview.mrdibre.com".

(** [... | jq -r filter]: each input is run through the filter, an error
    ends the run on that input only; each value emitted is printed on a
    line of its own. *)
Definition jq_r (filter : Jq.filter) (input : string) : string :=
  String.concat ""
    (map (fun v => jq_print_raw v ++ nl)
         (flat_map (fun i => fst (filter i)) (jq_inputs input))).

(** [jq -n '...']: the constructed value, printed. *)
Definition jq_n (value : Jq.json) : Cmd R unit :=
  write (jq_print value ++ nl).

(** What the three loggers print. *)
Definition info (message : string) : string :=
  echo_e (GREEN ++ "[INFO]" ++ NC ++ " " ++ message).

Definition warning (message : string) : string :=
  echo_e (YELLOW ++ "[WARN]" ++ NC ++ " " ++ message).

Definition failure (message : string) : string :=
  echo_e (RED ++ "[ERROR]" ++ NC ++ " " ++ message).

Definition log (message : string) : Cmd R unit :=
  write (info message).

Definition warn (message : string) : Cmd R unit :=
  write (warning message).

Definition error (message : string) : Cmd R unit :=
  write (failure message) ;;
  exit 1.

(** Lines 28-32. *)
Definition check_required_vars : Cmd R unit :=
  for_in required_vars (fun var =>
    if expand var =? ""
    then error ("Missing required environment variable: " ++ var)
    else ret tt).

(** The invocation of [curl] that [api_call] builds from its arguments. *)
Definition curl_args (method endpoint data : string) : Curl :=
  {| method := method;
     headers := ["Authorization: Bearer " ++ VERCEL_TOKEN;
                 "Content-Type: application/json"];
     data := payload data;
     url := VERCEL_API_BASE ++ endpoint |}.

Definition api_call (method endpoint data : string) : Cmd R unit :=
  fun s =>
    let (body, remote') := curl (curl_args method endpoint data) (remote s) in
    (Done tt,
     mkShell remote' (stdout s ++ body)
       (curls s ++ [curl_args method endpoint data])%list).

Definition check_existing_deployment : Cmd R unit :=
  log "Checking for existing deployments..." ;;
  response <- local_substitution
                (api_call "GET"
                   ("/v6/deployments?projectId=" ++ VERCEL_PROJECT_ID ++ "&limit=50") "") ;;
  (if negb (Z.eqb (snd response) 0)
   then error "Failed to fetch deployments"
   else ret tt) ;;
  write (head_1 (jq_r (Jq.check_existing_deployment_jq regex_test FE_BRANCH)
                   (echo (fst response)))).

Definition get_env_var_id : Cmd R unit :=
  log "Fetching VITE_API_URL environment variable ID..." ;;
  response <- local_substitution
                (api_call "GET" ("/v9/projects/" ++ VERCEL_PROJECT_ID ++ "/env") "") ;;
  (if negb (Z.eqb (snd response) 0)
   then error "Failed to fetch environment variables"
   else ret tt) ;;
  write (head_1 (jq_r get_env_var_id_jq (echo (fst response)))).

Definition update_env_var (env_var_id : string) : Cmd R unit :=
  if env_var_id =? "" then
    warn "VITE_API_URL environment variable not found, creating new one..." ;;
    create_data <- local_substitution (jq_n (env_object TARGET_API_URL)) ;;
    response <- local_substitution
                  (api_call "POST" ("/v10/projects/" ++ VERCEL_PROJECT_ID ++ "/env")
                     (fst create_data)) ;;
    if Z.eqb (snd response) 0
    then log "Created new VITE_API_URL environment variable"
    else error "Failed to create environment variable"
  else
    log ("Updating VITE_API_URL environment variable (ID: " ++ env_var_id ++ ")...") ;;
    update_data <- local_substitution (jq_n (env_object TARGET_API_URL)) ;;
    response <- local_substitution
                  (api_call "PATCH"
                     ("/v9/projects/" ++ VERCEL_PROJECT_ID ++ "/env/" ++ env_var_id)
                     (fst update_data)) ;;
    if Z.eqb (snd response) 0
    then log ("Updated VITE_API_URL to: " ++ TARGET_API_URL)
    else error "Failed to update environment variable".

Definition create_deployment : Cmd R unit :=
  log "Creating new deployment..." ;;
  deploy_data <- local_substitution (jq_n (deploy_object FE_BRANCH VERCEL_PROJECT_ID)) ;;
  response <- local_substitution (api_call "POST" "/v13/deployments" (fst deploy_data)) ;;
  if Z.eqb (snd response) 0 then
    deployment_url <- local_substitution
                        (write (jq_r (field_or_empty "url") (echo (fst response)))) ;;
    deployment_id <- local_substitution
                       (write (jq_r (field_or_empty "uid") (echo (fst response)))) ;;
    if negb (fst deployment_url =? "") then
      log "New deployment created successfully!" ;;
      log ("Deployment URL: https://" ++ fst deployment_url) ;;
      log ("Deployment ID: " ++ fst deployment_id)
    else
      log "Deployment triggered successfully"
  else error "Failed to create new deployment".

Definition redeploy_existing (existing_deployment_id : string) : Cmd R unit :=
  log ("Redeploying existing deployment (ID: " ++ existing_deployment_id ++ ")...") ;;
  redeploy_data <- local_substitution (jq_n (redeploy_object existing_deployment_id)) ;;
  response <- local_substitution (api_call "POST" "/v13/deployments" (fst redeploy_data)) ;;
  if Z.eqb (snd response) 0 then
    deployment_url <- local_substitution
                        (write (jq_r (field_or_empty "url") (echo (fst response)))) ;;
    deployment_id <- local_substitution
                       (write (jq_r (field_or_empty "uid") (echo (fst response)))) ;;
    if negb (fst deployment_url =? "") then
      log "Redeployment triggered successfully!" ;;
      log ("Deployment URL: https://" ++ fst deployment_url) ;;
      log ("Deployment ID: " ++ fst deployment_id)
    else
      log "Redeployment triggered successfully"
  else
    warn "Failed to redeploy existing deployment, creating new one instead..." ;;
    create_deployment.

Definition main : Cmd R unit :=
  (if negb jq_installed
   then error "jq is required but not installed. Please install jq to continue."
   else ret tt) ;;
  existing_deployment <- assign_substitution check_existing_deployment ;;
  env_var_id <- assign_substitution get_env_var_id ;;
  update_env_var env_var_id ;;
  (if negb (existing_deployment =? "") then
     log ("Found existing deployment: " ++ existing_deployment) ;;
     redeploy_existing existing_deployment
   else
     log ("No existing deployment found for branch: " ++ FE_BRANCH) ;;
     create_deployment) ;;
  log "Vercel deployment process completed successfully!".

(** The script from its first line to its last. *)
Definition script : Cmd R unit :=
  check_required_vars ;;
  log ("Starting Vercel deployment management for branch: " ++ FE_BRANCH) ;;
  log ("Target API URL: " ++ TARGET_API_URL) ;;
  main.

End ShScript.

(** The JSON of a variable listing. *)
Definition json_of_env (e : EnvVar) : Jq.json :=
  Jq.JObject [("id", Jq.JString (e_id e));
              ("key", Jq.JString (e_key e));
              ("value", Jq.JString (e_value e))].

Definition json_of_envs (r : GetEnvironmentVariablesResponse) : Jq.json :=
  Jq.JObject match envs r with
             | Some es => [("envs", Jq.JArray (map json_of_env es))]
             | None => []
             end.

(** A sample of the programs the script runs, for concrete runs: [echo -e]
    that turns each [\033] into the escape character, a remote side that
    answers every request with an empty object. *)
Fixpoint unescape_033 (s : string) : string :=
  match s with
  | String "\" (String "0" (String "3" (String "3" rest))) =>
      String (ascii_of_nat 27) (unescape_033 rest)
  | String c rest => String c (unescape_033 rest)
  | EmptyString => EmptyString
  end.

Definition sample_echo_e (s : string) : string := unescape_033 s ++ nl.

Definition sample_echo (s : string) : string := s ++ nl.

Definition sample_curl (_ : Curl) (r : unit) : string * unit := ("{}", r).

Definition sample_inputs (_ : string) : list Jq.json := [Jq.JObject []].

Definition sample_print (_ : Jq.json) : string := "{}".

Definition sample_regex (_ _ : string) : option bool := Some false.

Definition sample_script (environment : string -> option string) : Cmd unit unit :=
  script sample_curl sample_echo sample_echo_e true sample_inputs sample_print
    sample_print sample_regex environment.

Definition sample_start : Shell unit := mkShell tt "" [].

End Sh.

(** * Facts *)

(** ** Lists and strings *)

Lemma last_snoc2 {A} (l : list A) (a b d : A) : last (l ++ [a; b]) d = b.
Proof.
  change (l ++ [a; b])%list with (l ++ [a] ++ [b])%list.
  now rewrite app_assoc, last_last.
Qed.

Lemma find_first {A} (f : A -> bool) (pre : list A) (x : A) (post : list A) :
  (forall y, In y pre -> f y = false) ->
  f x = true ->
  find f (pre ++ x :: post) = Some x.
Proof.
  induction pre as [|y pre IH]; intros Hpre Hx; cbn [app find].
  - now rewrite Hx.
  - rewrite (Hpre y (or_introl eq_refl)). apply IH; [|exact Hx].
    intros z Hz. apply Hpre. now right.
Qed.

Lemma find_nowhere {A} (f : A -> bool) (l : list A) :
  (forall y, In y l -> f y = false) -> find f l = None.
Proof.
  induction l as [|y l IH]; intros Hl; cbn [find]; [reflexivity|].
  rewrite (Hl y (or_introl eq_refl)). apply IH.
  intros z Hz. apply Hl. now right.
Qed.

Lemma prefix_spec (sub s : string) :
  String.prefix sub s = true <-> exists post, s = sub ++ post.
Proof.
  revert s. induction sub as [|a sub IH]; intros s.
  - split; [intros _; now exists s | intros _; now destruct s].
  - destruct s as [|b s]; cbn [String.prefix].
    + split; [discriminate | intros [post H]; discriminate H].
    + destruct (ascii_dec a b) as [->|Hab].
      * rewrite IH. split; intros [post H]; exists post.
        -- cbn. now rewrite <- H.
        -- cbn in H. now injection H.
      * split; [discriminate|]. intros [post H]. cbn in H.
        injection H as Hb _. now elim Hab.
Qed.

Lemma includes_spec (s sub : string) :
  JS.includes s sub = true <-> Substring sub s.
Proof.
  unfold Substring. induction s as [|c s IH]; cbn [JS.includes].
  - destruct (String.prefix sub "") eqn:Hp.
    + split; [intros _|reflexivity].
      apply prefix_spec in Hp as [post Hp]. now exists "", post.
    + split; [discriminate|]. intros (pre & post & H).
      destruct pre; [|discriminate H]. cbn in H.
      assert (String.prefix sub "" = true) as Hp' by (apply prefix_spec; now exists post).
      congruence.
  - destruct (String.prefix sub (String c s)) eqn:Hp.
    + split; [intros _|reflexivity].
      apply prefix_spec in Hp as [post Hp]. now exists "", post.
    + rewrite IH. split.
      * intros (pre & post & ->). now exists (String c pre), post.
      * intros (pre & post & H). destruct pre as [|c' pre].
        -- cbn in H.
           assert (String.prefix sub (String c s) = true) as Hp'
             by (apply prefix_spec; now exists post).
           congruence.
        -- cbn in H. injection H as _ ->. now exists pre, post.
Qed.

Lemma truthy_spec (s : string) : JS.truthy s = true <-> s <> "".
Proof.
  unfold JS.truthy. rewrite negb_true_iff. apply String.eqb_neq.
Qed.

Lemma or_null_Some (o : option string) (s : string) :
  JS.or_null o = Some s -> o = Some s /\ JS.truthy s = true.
Proof.
  unfold JS.or_null. destruct o as [t|]; cbn [JS.opt_truthy]; [|discriminate].
  destruct (JS.truthy t) eqn:Ht; [|discriminate].
  intros [= ->]. now split.
Qed.

Lemma or_null_truthy (o : option string) (s : string) :
  JS.or_null o = Some s -> JS.opt_truthy (Some s) = true.
Proof. intros H. now apply or_null_Some in H. Qed.

Lemma envVarIdIn_truthy r id :
  envVarIdIn r = Some id -> JS.opt_truthy (Some id) = true.
Proof.
  unfold envVarIdIn. destruct (envs r); [|discriminate].
  apply or_null_truthy.
Qed.

(** ** The monad *)

Section Monad.

Context {P A B : Type}.
Implicit Types (w : World P).

Lemma bind_Ret (m : M P A) (k : A -> M P B) w a w' :
  m w = (Ret a, w') -> bind m k w = k a w'.
Proof. unfold bind. now intros ->. Qed.

Lemma bind_Exit (m : M P A) (k : A -> M P B) w code w' :
  m w = (Exit code, w') -> bind m k w = (Exit code, w').
Proof. unfold bind. now intros ->. Qed.

Lemma bind_Throw (m : M P A) (k : A -> M P B) w err w' :
  m w = (Throw err, w') -> bind m k w = (Throw err, w').
Proof. unfold bind. now intros ->. Qed.

Lemma try_catch_Ret (m : M P A) h w a w' :
  m w = (Ret a, w') -> try_catch m h w = (Ret a, w').
Proof. unfold try_catch. now intros ->. Qed.

Lemma try_catch_Exit (m : M P A) h w code w' :
  m w = (Exit code, w') -> try_catch m h w = (Exit code, w').
Proof. unfold try_catch. now intros ->. Qed.

Lemma try_catch_Throw (m : M P A) h w err w' :
  m w = (Throw err, w') -> try_catch m h w = h err w'.
Proof. unfold try_catch. now intros ->. Qed.

End Monad.

Ltac run_script :=
  cbv beta iota zeta delta
    [bind try_catch ret exit console_log console_error await log warn error
     platform console calls fst snd negb].

Ltac next_by tac :=
  erewrite bind_Ret by tac; cbn [platform console calls].

(** ** The script, procedure by procedure *)

Section ScriptFacts.

Context {P : Type}.
Variable toLowerCase : string -> string.
Variable vercel_com : Platform P.
Variable process_env : string -> option string.

Set Default Proof Using "Type".

Lemma for_of_required_ok (vars : list string) (w : World P) :
  forallb (fun varName => JS.opt_truthy (process_env varName)) vars = true ->
  for_of vars (fun varName =>
    if negb (JS.opt_truthy (process_env varName))
    then error ("Missing required environment variable: " ++ varName)
    else ret tt) w = (Ret tt, w).
Proof.
  induction vars as [|v vars IH]; intros Hall.
  - reflexivity.
  - cbn [forallb] in Hall. apply andb_true_iff in Hall as [Hv Hrest].
    cbn [for_of]. rewrite Hv. cbn [negb].
    now rewrite (bind_Ret (ret tt) _ w tt w eq_refl), IH.
Qed.

Lemma for_of_required_missing (vars : list string) (v : string) p c cs :
  find (fun varName => negb (JS.opt_truthy (process_env varName))) vars = Some v ->
  for_of vars (fun varName =>
    if negb (JS.opt_truthy (process_env varName))
    then error ("Missing required environment variable: " ++ varName)
    else ret tt) (mkWorld p c cs)
  = (Exit 1,
     mkWorld (P:=P) p
       (c ++ [(Stderr, error_line ("Missing required environment variable: " ++ v))])%list
       cs).
Proof.
  induction vars as [|x vars IH]; intros Hfind.
  - discriminate.
  - cbn [find] in Hfind. cbn [for_of].
    destruct (JS.opt_truthy (process_env x)); cbn [negb] in *.
    + now rewrite (bind_Ret (ret tt) _ _ tt _ eq_refl), IH.
    + injection Hfind as ->. reflexivity.
Qed.

Lemma firstMissing_None :
  firstMissing process_env = None <-> env_valid process_env = true.
Proof.
  unfold env_valid, firstMissing.
  induction requiredVars as [|x l IH]; cbn [forallb find].
  - tauto.
  - destruct (JS.opt_truthy (process_env x)); cbn [negb andb].
    + exact IH.
    + split; discriminate.
Qed.

Lemma firstMissing_Some (v : string) :
  firstMissing process_env = Some v ->
  In v requiredVars /\ JS.opt_truthy (process_env v) = false.
Proof.
  intros H. apply find_some in H as [Hin Hv].
  split; [exact Hin|]. now apply negb_true_iff.
Qed.

Lemma getConfig_ok (w : World P) :
  env_valid process_env = true ->
  getConfig process_env w = (Ret (config_of_env process_env), w).
Proof.
  intros Hv. unfold getConfig.
  now rewrite (bind_Ret _ _ w tt w (for_of_required_ok _ w Hv)).
Qed.

Lemma getConfig_missing (v : string) p c cs :
  firstMissing process_env = Some v ->
  getConfig process_env (mkWorld p c cs)
  = (Exit 1,
     mkWorld (P:=P) p
       (c ++ [(Stderr, error_line ("Missing required environment variable: " ++ v))])%list
       cs).
Proof.
  intros Hv. unfold getConfig.
  now rewrite (bind_Exit _ _ _ _ _ (for_of_required_missing _ v p c cs Hv)).
Qed.

Lemma checkExistingDeployment_fulfilled vercel projectId branch p c cs r p' :
  deployments_getDeployments vercel_com vercel projectId 50 p = (Fulfilled r, p') ->
  checkExistingDeployment toLowerCase vercel_com vercel projectId branch (mkWorld p c cs)
  = (Ret (existingDeploymentIn toLowerCase branch r),
     mkWorld p'
       (c ++ [(Stdout, info_line "Checking for existing deployments...")])%list
       (cs ++ [GetDeployments projectId 50])%list).
Proof.
  intros H. unfold checkExistingDeployment, existingDeploymentIn.
  run_script. rewrite H. run_script.
  now destruct (deployments r).
Qed.

Lemma checkExistingDeployment_rejected vercel projectId branch p c cs err p' :
  deployments_getDeployments vercel_com vercel projectId 50 p = (Rejected err, p') ->
  checkExistingDeployment toLowerCase vercel_com vercel projectId branch (mkWorld p c cs)
  = (Exit 1,
     mkWorld p'
       (c ++ [(Stdout, info_line "Checking for existing deployments...");
              (Stderr, error_line ("Failed to fetch deployments: " ++ err))])%list
       (cs ++ [GetDeployments projectId 50])%list).
Proof.
  intros H. unfold checkExistingDeployment.
  run_script. rewrite H. run_script.
  now rewrite <- app_assoc.
Qed.

Lemma getEnvVarId_fulfilled vercel projectId p c cs r p' :
  projects_getEnvironmentVariables vercel_com vercel projectId p = (Fulfilled r, p') ->
  getEnvVarId vercel_com vercel projectId (mkWorld p c cs)
  = (Ret (envVarIdIn r),
     mkWorld p'
       (c ++ [(Stdout, info_line "Fetching VITE_API_URL environment variable ID...")])%list
       (cs ++ [GetEnvironmentVariables projectId])%list).
Proof.
  intros H. unfold getEnvVarId, envVarIdIn.
  run_script. rewrite H. run_script.
  now destruct (envs r).
Qed.

Lemma getEnvVarId_rejected vercel projectId p c cs err p' :
  projects_getEnvironmentVariables vercel_com vercel projectId p = (Rejected err, p') ->
  getEnvVarId vercel_com vercel projectId (mkWorld p c cs)
  = (Exit 1,
     mkWorld p'
       (c ++ [(Stdout, info_line "Fetching VITE_API_URL environment variable ID...");
              (Stderr, error_line ("Failed to fetch environment variables: " ++ err))])%list
       (cs ++ [GetEnvironmentVariables projectId])%list).
Proof.
  intros H. unfold getEnvVarId.
  run_script. rewrite H. run_script.
  now rewrite <- app_assoc.
Qed.

Lemma updateEnvVar_fulfilled vercel projectId envVarId targetApiUrl p c cs p' :
  upsertAnswer vercel_com vercel projectId envVarId targetApiUrl p = (Fulfilled tt, p') ->
  updateEnvVar vercel_com vercel projectId envVarId targetApiUrl (mkWorld p c cs)
  = (Ret tt,
     mkWorld p'
       (c ++ [upsertBefore envVarId; upsertAfter envVarId targetApiUrl])%list
       (cs ++ [upsertRequest projectId envVarId targetApiUrl])%list).
Proof.
  unfold updateEnvVar, upsertAnswer, upsertRequest, upsertBefore, upsertAfter.
  destruct (JS.opt_truthy envVarId); intros H;
    run_script; rewrite H; run_script; now rewrite <- app_assoc.
Qed.

Lemma updateEnvVar_rejected vercel projectId envVarId targetApiUrl p c cs err p' :
  upsertAnswer vercel_com vercel projectId envVarId targetApiUrl p = (Rejected err, p') ->
  updateEnvVar vercel_com vercel projectId envVarId targetApiUrl (mkWorld p c cs)
  = (Exit 1,
     mkWorld p'
       (c ++ [upsertBefore envVarId;
              (Stderr, error_line ("Failed to update environment variable: " ++ err))])%list
       (cs ++ [upsertRequest projectId envVarId targetApiUrl])%list).
Proof.
  unfold updateEnvVar, upsertAnswer, upsertRequest, upsertBefore.
  destruct (JS.opt_truthy envVarId); intros H;
    run_script; rewrite H; run_script; now rewrite <- app_assoc.
Qed.

(** Whatever the platform answers, [updateEnvVar] sends one request. *)
Lemma updateEnvVar_calls vercel projectId envVarId targetApiUrl (w : World P) :
  calls (snd (updateEnvVar vercel_com vercel projectId envVarId targetApiUrl w))
  = (calls w ++ [upsertRequest projectId envVarId targetApiUrl])%list.
Proof.
  destruct w as [p c cs].
  destruct (upsertAnswer vercel_com vercel projectId envVarId targetApiUrl p)
    as [[[]|err] p'] eqn:H.
  - now rewrite (updateEnvVar_fulfilled _ _ _ _ _ _ _ _ H).
  - now rewrite (updateEnvVar_rejected _ _ _ _ _ _ _ _ _ H).
Qed.

Lemma createDeployment_fulfilled vercel projectId branch p c cs r p' :
  deployments_createDeployment vercel_com vercel (newDeploymentBody projectId branch) p
    = (Fulfilled r, p') ->
  createDeployment vercel_com vercel projectId branch (mkWorld p c cs)
  = (Ret tt,
     mkWorld p'
       (c ++ (Stdout, info_line "Creating new deployment...")
            :: deployedLines "New deployment created successfully!"
                 "Deployment triggered successfully" r)%list
       (cs ++ [CreateDeployment (newDeploymentBody projectId branch)])%list).
Proof.
  intros H. unfold createDeployment, deployedLines.
  run_script. rewrite H. run_script.
  destruct (JS.opt_truthy (r_url r)); now rewrite <- ?app_assoc.
Qed.

Lemma createDeployment_rejected vercel projectId branch p c cs err p' :
  deployments_createDeployment vercel_com vercel (newDeploymentBody projectId branch) p
    = (Rejected err, p') ->
  createDeployment vercel_com vercel projectId branch (mkWorld p c cs)
  = (Exit 1,
     mkWorld p'
       (c ++ [(Stdout, info_line "Creating new deployment...");
              (Stderr, error_line ("Failed to create new deployment: " ++ err))])%list
       (cs ++ [CreateDeployment (newDeploymentBody projectId branch)])%list).
Proof.
  intros H. unfold createDeployment.
  run_script. rewrite H. run_script.
  now rewrite <- app_assoc.
Qed.

Lemma createDeployment_calls vercel projectId branch (w : World P) :
  calls (snd (createDeployment vercel_com vercel projectId branch w))
  = (calls w ++ [CreateDeployment (newDeploymentBody projectId branch)])%list.
Proof.
  destruct w as [p c cs].
  destruct (deployments_createDeployment vercel_com vercel
              (newDeploymentBody projectId branch) p) as [[r|err] p'] eqn:H.
  - now rewrite (createDeployment_fulfilled _ _ _ _ _ _ _ _ H).
  - now rewrite (createDeployment_rejected _ _ _ _ _ _ _ _ H).
Qed.

Lemma redeployExisting_fulfilled vercel existingDeploymentId p c cs r p' :
  deployments_createDeployment vercel_com vercel (Redeploy existingDeploymentId "preview") p
    = (Fulfilled r, p') ->
  redeployExisting vercel_com process_env vercel existingDeploymentId (mkWorld p c cs)
  = (Ret tt,
     mkWorld p'
       (c ++ (Stdout, info_line ("Redeploying existing deployment (ID: "
                                   ++ existingDeploymentId ++ ")..."))
            :: deployedLines "Redeployment triggered successfully!"
                 "Redeployment triggered successfully" r)%list
       (cs ++ [CreateDeployment (Redeploy existingDeploymentId "preview")])%list).
Proof.
  intros H. unfold redeployExisting, deployedLines.
  run_script. rewrite H. run_script.
  destruct (JS.opt_truthy (r_url r)); now rewrite <- ?app_assoc.
Qed.

(** A rejected redeploy continues as [createDeployment] with the
    configuration read again from the same environment. *)
Lemma redeployExisting_rejected vercel existingDeploymentId p c cs err p' :
  env_valid process_env = true ->
  deployments_createDeployment vercel_com vercel (Redeploy existingDeploymentId "preview") p
    = (Rejected err, p') ->
  redeployExisting vercel_com process_env vercel existingDeploymentId (mkWorld p c cs)
  = createDeployment vercel_com
      (initializeVercel (token (config_of_env process_env)))
      (projectId (config_of_env process_env))
      (branch (config_of_env process_env))
      (mkWorld p'
         (c ++ [(Stdout, info_line ("Redeploying existing deployment (ID: "
                                      ++ existingDeploymentId ++ ")..."));
                (Stdout, warn_line
                   "Failed to redeploy existing deployment, creating new one instead...")])%list
         (cs ++ [CreateDeployment (Redeploy existingDeploymentId "preview")])%list).
Proof.
  intros Hv H. unfold redeployExisting.
  erewrite try_catch_Throw.
  2:{ erewrite bind_Ret by reflexivity.
      erewrite bind_Throw; [reflexivity|].
      unfold await. cbn [platform console calls]. rewrite H. reflexivity. }
  erewrite bind_Ret by reflexivity.
  erewrite bind_Ret by (apply getConfig_ok; exact Hv).
  cbn [console calls platform]. now rewrite <- app_assoc.
Qed.

(** [matchesBranch && isActiveState] decides [Selectable]. *)
Lemma matchesBranch_spec B d :
  matchesBranch toLowerCase B d = true <-> BranchMatch toLowerCase B d.
Proof.
  unfold matchesBranch, BranchMatch. rewrite orb_true_iff.
  assert (match option_map githubCommitRef (d_meta d) with
          | Some (Some ref) => (ref =? B)
          | _ => false
          end = true
          <-> exists m, d_meta d = Some m /\ githubCommitRef m = Some B) as Href.
  { destruct (d_meta d) as [m|]; cbn [option_map].
    - destruct (githubCommitRef m) as [ref|] eqn:Hm.
      + rewrite String.eqb_eq. split.
        * intros ->. now exists m.
        * intros (m' & [= <-] & Hm'). congruence.
      + split; [discriminate|]. intros (m' & [= <-] & Hm'). congruence.
    - split; [discriminate|]. now intros (m' & Hm & _). }
  assert (match d_name d with
          | Some name => JS.includes (toLowerCase name) (toLowerCase B)
          | None => false
          end = true
          <-> exists n, d_name d = Some n
                        /\ Substring (toLowerCase B) (toLowerCase n)) as Hname.
  { destruct (d_name d) as [n|].
    - rewrite includes_spec. split.
      + intros H. now exists n.
      + now intros (n' & [= <-] & H).
    - split; [discriminate|]. now intros (n' & Hn & _). }
  split; (intros [H|H]; [left; apply Href, H | right; apply Hname, H]).
Qed.

Lemma isActiveState_spec d : isActiveState d = true <-> ActiveState d.
Proof.
  unfold isActiveState, ActiveState. destruct (d_state d) as [s|].
  - rewrite orb_true_iff, !String.eqb_eq.
    split; (intros [H|H]; [left|right]; congruence).
  - split; [discriminate|]. now intros [H|H].
Qed.

Lemma selectable_spec B d :
  matchesBranch toLowerCase B d && isActiveState d = true <-> Selectable toLowerCase B d.
Proof.
  unfold Selectable. now rewrite andb_true_iff, matchesBranch_spec, isActiveState_spec.
Qed.

Lemma not_selectable_spec B d :
  ~ Selectable toLowerCase B d ->
  matchesBranch toLowerCase B d && isActiveState d = false.
Proof.
  intros H. apply not_true_is_false. now rewrite selectable_spec.
Qed.

Lemma existingDeploymentIn_truthy B r id :
  existingDeploymentIn toLowerCase B r = Some id -> JS.opt_truthy (Some id) = true.
Proof.
  unfold existingDeploymentIn. destruct (deployments r); [|discriminate].
  apply or_null_truthy.
Qed.

Ltac enter_main Hv :=
  unfold main;
  next_by ltac:(apply getConfig_ok; exact Hv);
  next_by reflexivity; next_by reflexivity; cbv zeta.

(** ** The claims about [vercel-deploy.ts] *)

(** C1 (amended).  When the listing is fulfilled with the deployments [L],
    [checkExistingDeployment] returns normally; its result is decided by
    the first element of [L], in input order, whose branch reference
    equals [B] or whose lower-cased name contains the lower-cased [B], and
    whose state is READY or BUILDING: the identifier of that element when
    the identifier is not empty, none when it is empty ([uid || null]).
    It returns none when no element qualifies. *)
Theorem checkExistingDeployment_first_match vercel projectId B L p c cs p' :
  deployments_getDeployments vercel_com vercel projectId 50 p
    = (Fulfilled {| deployments := Some L |}, p') ->
  exists result w',
    checkExistingDeployment toLowerCase vercel_com vercel projectId B (mkWorld p c cs)
      = (Ret result, w')
    /\ (forall pre d post,
           L = (pre ++ d :: post)%list ->
           (forall x, In x pre -> ~ Selectable toLowerCase B x) ->
           Selectable toLowerCase B d ->
           result = if JS.truthy (d_uid d) then Some (d_uid d) else None)
    /\ ((forall x, In x L -> ~ Selectable toLowerCase B x) -> result = None).
Proof.
  intros H. do 2 eexists. split; [|split].
  - eapply checkExistingDeployment_fulfilled; exact H.
  - intros pre d post -> Hpre Hd.
    unfold existingDeploymentIn; cbn [deployments].
    rewrite find_first.
    + reflexivity.
    + intros y Hy. now apply not_selectable_spec, Hpre.
    + now apply selectable_spec.
  - intros Hnone. unfold existingDeploymentIn; cbn [deployments].
    rewrite find_nowhere; [reflexivity|].
    intros y Hy. now apply not_selectable_spec, Hnone.
Qed.

(** C8 (amended).  When the listing is fulfilled with the variables [es],
    [getEnvVarId] returns normally; its result is decided by the first
    element of [es] whose key is VITE_API_URL: the identifier of that
    element when the identifier is not empty, none when it is empty
    ([id || null]).  It returns none when no element has that key.
    Elements after the first match play no part. *)
Theorem getEnvVarId_first_match vercel projectId es p c cs p' :
  projects_getEnvironmentVariables vercel_com vercel projectId p
    = (Fulfilled {| envs := Some es |}, p') ->
  exists result w',
    getEnvVarId vercel_com vercel projectId (mkWorld p c cs) = (Ret result, w')
    /\ (forall pre e post,
           es = (pre ++ e :: post)%list ->
           (forall x, In x pre -> e_key x <> "VITE_API_URL") ->
           e_key e = "VITE_API_URL" ->
           result = if JS.truthy (e_id e) then Some (e_id e) else None)
    /\ ((forall x, In x es -> e_key x <> "VITE_API_URL") -> result = None).
Proof.
  intros H. do 2 eexists. split; [|split].
  - eapply getEnvVarId_fulfilled; exact H.
  - intros pre e post -> Hpre He.
    unfold envVarIdIn; cbn [envs].
    rewrite find_first.
    + reflexivity.
    + intros y Hy. now apply String.eqb_neq, Hpre.
    + now apply String.eqb_eq.
  - intros Hnone. unfold envVarIdIn; cbn [envs].
    rewrite find_nowhere; [reflexivity|].
    intros y Hy. now apply String.eqb_neq, Hnone.
Qed.

(** C5.  When one of the four required variables is missing or empty,
    [main] ends the process with exit status 1 after printing
    "Missing required environment variable: <name>" on the error stream
    for such a variable; no request has been sent and the platform has
    not been touched. *)
Theorem missing_configuration_aborts p c cs :
  (exists varName,
      In varName requiredVars
      /\ (process_env varName = None \/ process_env varName = Some "")) ->
  exists v w',
    main toLowerCase vercel_com process_env (mkWorld p c cs) = (Exit 1, w')
    /\ In v requiredVars
    /\ (process_env v = None \/ process_env v = Some "")
    /\ console w'
       = (c ++ [(Stderr, error_line ("Missing required environment variable: " ++ v))])%list
    /\ calls w' = cs
    /\ platform w' = p.
Proof.
  intros (x & Hx & Hfalsy).
  destruct (firstMissing process_env) as [v|] eqn:Hv.
  - exists v. eexists. split.
    + unfold main. apply try_catch_Exit, bind_Exit. eapply getConfig_missing; exact Hv.
    + apply firstMissing_Some in Hv as [Hin Hf].
      repeat split; try assumption; try reflexivity.
      destruct (process_env v) as [s|]; [right|now left].
      cbn [JS.opt_truthy] in Hf. unfold JS.truthy in Hf.
      apply negb_false_iff, String.eqb_eq in Hf. now subst.
  - exfalso. apply firstMissing_None in Hv. unfold env_valid in Hv.
    rewrite forallb_forall in Hv. specialize (Hv x Hx).
    destruct Hfalsy as [E|E]; rewrite E in Hv; discriminate.
Qed.

(** C4.  With a valid configuration: when listing the deployments is
    rejected, [main] ends the process with exit status 1 and that listing
    is the only request sent; when that listing is fulfilled and listing
    the environment variables is rejected, [main] ends the process with
    exit status 1 and the two listings are the only requests sent.  The
    last line printed is the error. *)
Theorem lookup_failure_aborts p c cs :
  env_valid process_env = true ->
  let config := config_of_env process_env in
  let vercel := initializeVercel (token config) in
  (forall err p1,
      deployments_getDeployments vercel_com vercel (projectId config) 50 p
        = (Rejected err, p1) ->
      exists w',
        main toLowerCase vercel_com process_env (mkWorld p c cs) = (Exit 1, w')
        /\ calls w' = (cs ++ [GetDeployments (projectId config) 50])%list
        /\ last (console w') (Stdout, "")
           = (Stderr, error_line ("Failed to fetch deployments: " ++ err)))
  /\
  (forall r p1 err p2,
      deployments_getDeployments vercel_com vercel (projectId config) 50 p
        = (Fulfilled r, p1) ->
      projects_getEnvironmentVariables vercel_com vercel (projectId config) p1
        = (Rejected err, p2) ->
      exists w',
        main toLowerCase vercel_com process_env (mkWorld p c cs) = (Exit 1, w')
        /\ calls w' = (cs ++ [GetDeployments (projectId config) 50;
                              GetEnvironmentVariables (projectId config)])%list
        /\ last (console w') (Stdout, "")
           = (Stderr, error_line ("Failed to fetch environment variables: " ++ err))).
Proof.
  intros Hv config vercel. split.
  - intros err p1 H1. eexists. split; [|split].
    + apply try_catch_Exit. enter_main Hv.
      apply bind_Exit. eapply checkExistingDeployment_rejected; exact H1.
    + reflexivity.
    + cbn [console]. apply last_snoc2.
  - intros r p1 err p2 H1 H2. eexists. split; [|split].
    + apply try_catch_Exit. enter_main Hv.
      next_by ltac:(apply checkExistingDeployment_fulfilled; exact H1).
      apply bind_Exit. eapply getEnvVarId_rejected; exact H2.
    + cbn [calls]. now rewrite <- app_assoc.
    + cbn [console]. apply last_snoc2.
Qed.

(** C2 (amended).  With a valid configuration and both listings
    fulfilled: when the create or edit request of the upsert is rejected,
    the failure is printed on the error stream and [main] ends the
    process with exit status 1; the upsert request is the last request
    sent, so no deployment request follows. *)
Theorem upsert_failure_aborts p c cs r1 p1 r2 p2 err p3 :
  env_valid process_env = true ->
  let config := config_of_env process_env in
  let vercel := initializeVercel (token config) in
  deployments_getDeployments vercel_com vercel (projectId config) 50 p
    = (Fulfilled r1, p1) ->
  projects_getEnvironmentVariables vercel_com vercel (projectId config) p1
    = (Fulfilled r2, p2) ->
  upsertAnswer vercel_com vercel (projectId config) (envVarIdIn r2) (targetApiUrl config) p2
    = (Rejected err, p3) ->
  exists w',
    main toLowerCase vercel_com process_env (mkWorld p c cs) = (Exit 1, w')
    /\ calls w'
       = (cs ++ [GetDeployments (projectId config) 50;
                 GetEnvironmentVariables (projectId config);
                 upsertRequest (projectId config) (envVarIdIn r2) (targetApiUrl config)])%list
    /\ last (console w') (Stdout, "")
       = (Stderr, error_line ("Failed to update environment variable: " ++ err)).
Proof.
  intros Hv config vercel H1 H2 H3. eexists. split; [|split].
  - apply try_catch_Exit. enter_main Hv.
    next_by ltac:(apply checkExistingDeployment_fulfilled; exact H1).
    next_by ltac:(apply getEnvVarId_fulfilled; exact H2).
    apply bind_Exit. eapply updateEnvVar_rejected; exact H3.
  - cbn [calls]. now rewrite <- !app_assoc.
  - cbn [console]. apply last_snoc2.
Qed.

Lemma deployedLines_stdout created triggered r :
  Forall (fun line : Stream * string => fst line = Stdout)
         (deployedLines created triggered r).
Proof.
  unfold deployedLines. destruct (JS.opt_truthy (r_url r)); repeat constructor.
Qed.

Lemma upsertBefore_stdout envVarId : fst (upsertBefore envVarId) = Stdout.
Proof. unfold upsertBefore. now destruct (JS.opt_truthy envVarId). Qed.

Lemma upsertAfter_stdout envVarId url : fst (upsertAfter envVarId url) = Stdout.
Proof. unfold upsertAfter. now destruct (JS.opt_truthy envVarId). Qed.

(** C3.  With a valid configuration, both listings and the upsert
    fulfilled, and an existing deployment [id] found in step 1: when the
    redeploy request is rejected, the next and last request is one
    create-new request for the same project and branch.  When that
    request is fulfilled [main] returns normally and nothing was printed
    on the error stream; when it is rejected [main] ends the process
    with exit status 1 after printing that failure. *)
Theorem redeploy_failure_falls_back p c cs r1 p1 id r2 p2 p3 err p4 :
  env_valid process_env = true ->
  let config := config_of_env process_env in
  let vercel := initializeVercel (token config) in
  deployments_getDeployments vercel_com vercel (projectId config) 50 p
    = (Fulfilled r1, p1) ->
  existingDeploymentIn toLowerCase (branch config) r1 = Some id ->
  projects_getEnvironmentVariables vercel_com vercel (projectId config) p1
    = (Fulfilled r2, p2) ->
  upsertAnswer vercel_com vercel (projectId config) (envVarIdIn r2) (targetApiUrl config) p2
    = (Fulfilled tt, p3) ->
  deployments_createDeployment vercel_com vercel (Redeploy id "preview") p3
    = (Rejected err, p4) ->
  let createNew :=
    NewDeployment ("pr-" ++ branch config) (projectId config) "preview"
      {| gs_type := "github"; gs_ref := branch config |} in
  let trace :=
    (cs ++ [GetDeployments (projectId config) 50;
            GetEnvironmentVariables (projectId config);
            upsertRequest (projectId config) (envVarIdIn r2) (targetApiUrl config);
            CreateDeployment (Redeploy id "preview");
            CreateDeployment createNew])%list in
  (forall r p5,
      deployments_createDeployment vercel_com vercel createNew p4 = (Fulfilled r, p5) ->
      exists w' printed,
        main toLowerCase vercel_com process_env (mkWorld p c cs) = (Ret tt, w')
        /\ calls w' = trace
        /\ console w' = (c ++ printed)%list
        /\ Forall (fun line => fst line = Stdout) printed)
  /\
  (forall err' p5,
      deployments_createDeployment vercel_com vercel createNew p4 = (Rejected err', p5) ->
      exists w',
        main toLowerCase vercel_com process_env (mkWorld p c cs) = (Exit 1, w')
        /\ calls w' = trace
        /\ last (console w') (Stdout, "")
           = (Stderr, error_line ("Failed to create new deployment: " ++ err'))).
Proof.
  intros Hv config vercel H1 Hid H2 H3 H4 createNew trace.
  pose proof (existingDeploymentIn_truthy _ _ _ Hid) as Htruthy.
  split.
  - intros r p5 H5. do 2 eexists. split; [|split; [|split]].
    + apply try_catch_Ret. enter_main Hv.
      next_by ltac:(apply checkExistingDeployment_fulfilled; exact H1).
      next_by ltac:(apply getEnvVarId_fulfilled; exact H2).
      next_by ltac:(apply updateEnvVar_fulfilled; exact H3).
      fold config. rewrite Hid, Htruthy. cbn [JS.narrow].
      next_by ltac:(erewrite bind_Ret by reflexivity; cbn [platform console calls];
                    rewrite (redeployExisting_rejected _ _ _ _ _ _ _ Hv H4);
                    apply createDeployment_fulfilled; exact H5).
      reflexivity.
    + cbn [calls]. subst trace. now rewrite <- !app_assoc.
    + cbn [console]. rewrite <- !app_assoc. reflexivity.
    + repeat (apply Forall_app; split); repeat apply Forall_cons;
        try apply Forall_nil; try reflexivity;
        auto using deployedLines_stdout, upsertBefore_stdout, upsertAfter_stdout.
  - intros err' p5 H5. eexists. split; [|split].
    + apply try_catch_Exit. enter_main Hv.
      next_by ltac:(apply checkExistingDeployment_fulfilled; exact H1).
      next_by ltac:(apply getEnvVarId_fulfilled; exact H2).
      next_by ltac:(apply updateEnvVar_fulfilled; exact H3).
      fold config. rewrite Hid, Htruthy. cbn [JS.narrow].
      apply bind_Exit.
      erewrite bind_Ret by reflexivity; cbn [platform console calls].
      rewrite (redeployExisting_rejected _ _ _ _ _ _ _ Hv H4).
      apply createDeployment_rejected; exact H5.
    + cbn [calls]. subst trace. now rewrite <- !app_assoc.
    + cbn [console]. apply last_snoc2.
Qed.

(** C10 (amended).  With a valid configuration: when the listing is
    fulfilled by a response without a [deployments] field,
    [checkExistingDeployment] returns none (it neither throws nor exits);
    if the variable listing and the upsert are then fulfilled, the
    deployment request of [main] is the create-new request for the
    configured project and branch; and whatever the platform answers after
    the listing, the run sends no redeploy request. *)
Theorem absent_deployments_creates_new p c cs p1 :
  env_valid process_env = true ->
  let config := config_of_env process_env in
  let vercel := initializeVercel (token config) in
  deployments_getDeployments vercel_com vercel (projectId config) 50 p
    = (Fulfilled {| deployments := None |}, p1) ->
  (exists w1,
      checkExistingDeployment toLowerCase vercel_com vercel (projectId config)
        (branch config) (mkWorld p c cs) = (Ret None, w1))
  /\
  (forall r2 p2 p3,
      projects_getEnvironmentVariables vercel_com vercel (projectId config) p1
        = (Fulfilled r2, p2) ->
      upsertAnswer vercel_com vercel (projectId config) (envVarIdIn r2)
        (targetApiUrl config) p2 = (Fulfilled tt, p3) ->
      calls (snd (main toLowerCase vercel_com process_env (mkWorld p c cs)))
      = (cs ++ [GetDeployments (projectId config) 50;
                GetEnvironmentVariables (projectId config);
                upsertRequest (projectId config) (envVarIdIn r2) (targetApiUrl config);
                CreateDeployment
                  (NewDeployment ("pr-" ++ branch config) (projectId config) "preview"
                     {| gs_type := "github"; gs_ref := branch config |})])%list)
  /\
  (exists sent,
      calls (snd (main toLowerCase vercel_com process_env (mkWorld p c cs)))
      = (cs ++ sent)%list
      /\ forall id target, ~ In (CreateDeployment (Redeploy id target)) sent).
Proof.
  intros Hv config vercel H1.
  assert (forall r2 p2 p3,
      projects_getEnvironmentVariables vercel_com vercel (projectId config) p1
        = (Fulfilled r2, p2) ->
      upsertAnswer vercel_com vercel (projectId config) (envVarIdIn r2)
        (targetApiUrl config) p2 = (Fulfilled tt, p3) ->
      calls (snd (main toLowerCase vercel_com process_env (mkWorld p c cs)))
      = (cs ++ [GetDeployments (projectId config) 50;
                GetEnvironmentVariables (projectId config);
                upsertRequest (projectId config) (envVarIdIn r2) (targetApiUrl config);
                CreateDeployment (newDeploymentBody (projectId config) (branch config))])%list)
    as Hcreate.
  { intros r2 p2 p3 H2 H3.
    destruct (deployments_createDeployment vercel_com vercel
                (newDeploymentBody (projectId config) (branch config)) p3)
      as [[r|err] p4] eqn:H4.
    - unfold main. erewrite (try_catch_Ret (P:=P)).
      2:{ enter_main Hv.
          next_by ltac:(apply checkExistingDeployment_fulfilled; exact H1).
          next_by ltac:(apply getEnvVarId_fulfilled; exact H2).
          next_by ltac:(apply updateEnvVar_fulfilled; exact H3).
          unfold existingDeploymentIn; cbn [deployments JS.opt_truthy].
          next_by ltac:(erewrite bind_Ret by reflexivity; cbn [platform console calls];
                        apply createDeployment_fulfilled; exact H4).
          reflexivity. }
      cbn [snd calls]. now rewrite <- !app_assoc.
    - unfold main. erewrite (try_catch_Exit (P:=P)).
      2:{ enter_main Hv.
          next_by ltac:(apply checkExistingDeployment_fulfilled; exact H1).
          next_by ltac:(apply getEnvVarId_fulfilled; exact H2).
          next_by ltac:(apply updateEnvVar_fulfilled; exact H3).
          unfold existingDeploymentIn; cbn [deployments JS.opt_truthy].
          apply bind_Exit.
          erewrite bind_Ret by reflexivity; cbn [platform console calls].
          apply createDeployment_rejected; exact H4. }
      cbn [snd calls]. now rewrite <- !app_assoc. }
  split; [|split; [exact Hcreate|]].
  - eexists. eapply checkExistingDeployment_fulfilled in H1. exact H1.
  - destruct (projects_getEnvironmentVariables vercel_com vercel (projectId config) p1)
      as [[r2|err2] p2] eqn:H2.
    + destruct (upsertAnswer vercel_com vercel (projectId config) (envVarIdIn r2)
                  (targetApiUrl config) p2) as [[[]|err3] p3] eqn:H3.
      * eexists. split; [exact (Hcreate r2 p2 p3 eq_refl H3)|].
        intros id target [H|[H|[H|[H|[]]]]]; try discriminate H.
        unfold upsertRequest in H. destruct (JS.opt_truthy (envVarIdIn r2)); discriminate H.
      * eexists. split.
        -- unfold main. erewrite (try_catch_Exit (P:=P)).
           2:{ enter_main Hv.
               next_by ltac:(apply checkExistingDeployment_fulfilled; exact H1).
               next_by ltac:(apply getEnvVarId_fulfilled; exact H2).
               apply bind_Exit. eapply updateEnvVar_rejected; exact H3. }
           cbn [snd calls]. rewrite <- !app_assoc. reflexivity.
        -- intros id target [H|[H|[H|[]]]]; try discriminate H.
           unfold upsertRequest in H.
           destruct (JS.opt_truthy (envVarIdIn r2)); discriminate H.
    + eexists. split.
      * unfold main. erewrite (try_catch_Exit (P:=P)).
        2:{ enter_main Hv.
            next_by ltac:(apply checkExistingDeployment_fulfilled; exact H1).
            apply bind_Exit. eapply getEnvVarId_rejected; exact H2. }
        cbn [snd calls]. rewrite <- !app_assoc. reflexivity.
      * intros id target [H|[H|[]]]; discriminate H.
Qed.

(** C7.  With a valid configuration whose branch is [B], the target API
    URL of the configuration is "https://api.pr-" ++ B ++
    ".deploy-preview.mrdibre.com" with [B] copied unchanged, and the
    request [createDeployment] sends for [B] names the deployment
    "pr-" ++ B. *)
Theorem derived_names B :
  env_valid process_env = true ->
  process_env "FE_BRANCH" = Some B ->
  (forall w : World P,
      exists config,
        getConfig process_env w = (Ret config, w)
        /\ branch config = B
        /\ targetApiUrl config = "https://api.pr-" ++ B ++ ".deploy-preview.mrdibre.com")
  /\
  (forall vercel projectId (w : World P),
      calls (snd (createDeployment vercel_com vercel projectId B w))
      = (calls w ++ [CreateDeployment
                       (NewDeployment ("pr-" ++ B) projectId "preview"
                          {| gs_type := "github"; gs_ref := B |})])%list).
Proof.
  intros Hv HB. split.
  - intros w. exists (config_of_env process_env). split; [|split].
    + now apply getConfig_ok.
    + unfold config_of_env, env_get; cbn [branch]. now rewrite HB.
    + unfold config_of_env; cbn [targetApiUrl]. now rewrite HB.
  - intros vercel projectId w. apply createDeployment_calls.
Qed.

(** C6 (amended).  For every identifier the lookup can produce: when it
    found none, [updateEnvVar] sends exactly one request, the create of
    {key VITE_API_URL, value targetApiUrl, type plain, target [preview]};
    when it found [id], it sends exactly one request, the edit of [id]
    with that same body.  A second run of the lookup-and-upsert step,
    started where a completed first run ended, sends the listing and an
    edit, and no create, provided the platform then lists the variable
    with an identifier: the first VITE_API_URL record [e] of the listing
    has a non-empty [e_id], and the edit is sent to it. *)
Theorem updateEnvVar_upsert vercel projectId targetApiUrl :
  let body := {| b_key := "VITE_API_URL"; b_value := targetApiUrl;
                 b_type := "plain"; b_target := ["preview"] |} in
  (forall r (w : World P),
      (envVarIdIn r = None ->
       calls (snd (updateEnvVar vercel_com vercel projectId (envVarIdIn r) targetApiUrl w))
       = (calls w ++ [CreateEnvironmentVariable projectId body])%list)
      /\
      (forall id,
          envVarIdIn r = Some id ->
          calls (snd (updateEnvVar vercel_com vercel projectId (envVarIdIn r) targetApiUrl w))
          = (calls w ++ [EditEnvironmentVariable projectId id body])%list))
  /\
  (forall (w0 w1 : World P) pre e post p2,
      upsertStep vercel_com vercel projectId targetApiUrl w0 = (Ret tt, w1) ->
      projects_getEnvironmentVariables vercel_com vercel projectId (platform w1)
        = (Fulfilled {| envs := Some (pre ++ e :: post)%list |}, p2) ->
      (forall x, In x pre -> e_key x <> "VITE_API_URL") ->
      e_key e = "VITE_API_URL" ->
      e_id e <> "" ->
      calls (snd (upsertStep vercel_com vercel projectId targetApiUrl w1))
      = (calls w1 ++ [GetEnvironmentVariables projectId;
                      EditEnvironmentVariable projectId (e_id e) body])%list).
Proof.
  intros body. split.
  - intros r w. rewrite updateEnvVar_calls. unfold upsertRequest. split.
    + now intros ->.
    + intros id Hid. rewrite Hid.
      now rewrite (envVarIdIn_truthy _ _ Hid).
  - intros w0 [p1 c1 cs1] pre e post p2 _ Hlist Hpre He Hid.
    cbn [platform] in Hlist. unfold upsertStep.
    erewrite bind_Ret by (apply getEnvVarId_fulfilled; exact Hlist).
    rewrite updateEnvVar_calls. cbn [calls].
    unfold envVarIdIn; cbn [envs]. rewrite find_first.
    + cbn [option_map]. unfold upsertRequest, JS.or_null. cbn [JS.opt_truthy].
      apply truthy_spec in Hid. rewrite Hid. cbn [JS.opt_truthy]. rewrite Hid.
      cbn [JS.narrow]. now rewrite <- app_assoc.
    + intros y Hy. now apply String.eqb_neq, Hpre.
    + now apply String.eqb_eq.
Qed.

(** ** Whole runs of [main], case by case *)

Lemma main_missing v p c cs :
  firstMissing process_env = Some v ->
  main toLowerCase vercel_com process_env (mkWorld p c cs)
  = (Exit 1,
     mkWorld p
       (c ++ [(Stderr, error_line ("Missing required environment variable: " ++ v))])%list
       (cs ++ [])%list).
Proof.
  intros Hm. unfold main. apply try_catch_Exit, bind_Exit.
  rewrite app_nil_r. eapply getConfig_missing; exact Hm.
Qed.

Section ValidRun.

Set Default Proof Using "All".

Hypothesis Hv : env_valid process_env = true.

Let config := config_of_env process_env.
Let vercel := initializeVercel (token config).

Variables (p : P) (c : list (Stream * string)) (cs : list Request).

Lemma main_listing_rejected err p1 :
  deployments_getDeployments vercel_com vercel (projectId config) 50 p = (Rejected err, p1) ->
  main toLowerCase vercel_com process_env (mkWorld p c cs)
  = (Exit 1,
     mkWorld p1
       (c ++ (startLines config ++ [checkingLine])
          ++ [(Stderr, error_line ("Failed to fetch deployments: " ++ err))])%list
       (cs ++ [GetDeployments (projectId config) 50])%list).
Proof.
  intros H1. apply try_catch_Exit. enter_main Hv.
  apply bind_Exit. erewrite checkExistingDeployment_rejected by exact H1.
  now rewrite <- !app_assoc.
Qed.

Section Listed.

Variables (r1 : GetDeploymentsResponse) (p1 : P).
Hypothesis H1 :
  deployments_getDeployments vercel_com vercel (projectId config) 50 p = (Fulfilled r1, p1).

Lemma main_variables_rejected err p2 :
  projects_getEnvironmentVariables vercel_com vercel (projectId config) p1
    = (Rejected err, p2) ->
  main toLowerCase vercel_com process_env (mkWorld p c cs)
  = (Exit 1,
     mkWorld p2
       (c ++ (startLines config ++ [checkingLine; fetchingLine])
          ++ [(Stderr, error_line ("Failed to fetch environment variables: " ++ err))])%list
       (cs ++ [GetDeployments (projectId config) 50;
               GetEnvironmentVariables (projectId config)])%list).
Proof.
  intros H2. apply try_catch_Exit. enter_main Hv.
  next_by ltac:(apply checkExistingDeployment_fulfilled; exact H1).
  apply bind_Exit. erewrite getEnvVarId_rejected by exact H2.
  now rewrite <- !app_assoc.
Qed.

Section Looked.

Variables (r2 : GetEnvironmentVariablesResponse) (p2 : P).
Hypothesis H2 :
  projects_getEnvironmentVariables vercel_com vercel (projectId config) p1
    = (Fulfilled r2, p2).

Let upsert := upsertRequest (projectId config) (envVarIdIn r2) (targetApiUrl config).

Lemma main_upsert_rejected err p3 :
  upsertAnswer vercel_com vercel (projectId config) (envVarIdIn r2) (targetApiUrl config) p2
    = (Rejected err, p3) ->
  main toLowerCase vercel_com process_env (mkWorld p c cs)
  = (Exit 1,
     mkWorld p3
       (c ++ (startLines config ++ [checkingLine; fetchingLine; upsertBefore (envVarIdIn r2)])
          ++ [(Stderr, error_line ("Failed to update environment variable: " ++ err))])%list
       (cs ++ [GetDeployments (projectId config) 50;
               GetEnvironmentVariables (projectId config);
               upsert])%list).
Proof.
  intros H3. apply try_catch_Exit. enter_main Hv.
  next_by ltac:(apply checkExistingDeployment_fulfilled; exact H1).
  next_by ltac:(apply getEnvVarId_fulfilled; exact H2).
  apply bind_Exit. erewrite updateEnvVar_rejected by exact H3.
  now rewrite <- !app_assoc.
Qed.

Section Upserted.

Variable p3 : P.
Hypothesis H3 :
  upsertAnswer vercel_com vercel (projectId config) (envVarIdIn r2) (targetApiUrl config) p2
    = (Fulfilled tt, p3).

(** What has been printed when step 3 starts. *)
Let before : list (Stream * string) :=
  (startLines config
     ++ [checkingLine; fetchingLine;
         upsertBefore (envVarIdIn r2);
         upsertAfter (envVarIdIn r2) (targetApiUrl config)])%list.

Let lookups : list Request :=
  [GetDeployments (projectId config) 50;
   GetEnvironmentVariables (projectId config);
   upsert].

Let createNew := CreateDeployment (newDeploymentBody (projectId config) (branch config)).

Let notFound : Stream * string :=
  (Stdout, info_line ("No existing deployment found for branch: " ++ branch config)).

Lemma main_created r p4 :
  existingDeploymentIn toLowerCase (branch config) r1 = None ->
  deployments_createDeployment vercel_com vercel
    (newDeploymentBody (projectId config) (branch config)) p3 = (Fulfilled r, p4) ->
  main toLowerCase vercel_com process_env (mkWorld p c cs)
  = (Ret tt,
     mkWorld p4
       (c ++ (before ++ notFound :: (Stdout, info_line "Creating new deployment...")
                :: deployedLines "New deployment created successfully!"
                     "Deployment triggered successfully" r)
          ++ [completedLine])%list
       (cs ++ lookups ++ [createNew])%list).
Proof.
  intros Hid H4. apply try_catch_Ret. enter_main Hv.
  next_by ltac:(apply checkExistingDeployment_fulfilled; exact H1).
  next_by ltac:(apply getEnvVarId_fulfilled; exact H2).
  next_by ltac:(apply updateEnvVar_fulfilled; exact H3).
  fold config. rewrite Hid. cbn [JS.opt_truthy].
  next_by ltac:(erewrite bind_Ret by reflexivity; cbn [platform console calls];
                apply createDeployment_fulfilled; exact H4).
  unfold log, console_log. cbn [platform console calls].
  subst before lookups createNew notFound. cbn [app].
  now rewrite <- !app_assoc.
Qed.

Lemma main_create_rejected err p4 :
  existingDeploymentIn toLowerCase (branch config) r1 = None ->
  deployments_createDeployment vercel_com vercel
    (newDeploymentBody (projectId config) (branch config)) p3 = (Rejected err, p4) ->
  main toLowerCase vercel_com process_env (mkWorld p c cs)
  = (Exit 1,
     mkWorld p4
       (c ++ (before ++ [notFound; (Stdout, info_line "Creating new deployment...")])
          ++ [(Stderr, error_line ("Failed to create new deployment: " ++ err))])%list
       (cs ++ lookups ++ [createNew])%list).
Proof.
  intros Hid H4. apply try_catch_Exit. enter_main Hv.
  next_by ltac:(apply checkExistingDeployment_fulfilled; exact H1).
  next_by ltac:(apply getEnvVarId_fulfilled; exact H2).
  next_by ltac:(apply updateEnvVar_fulfilled; exact H3).
  fold config. rewrite Hid. cbn [JS.opt_truthy].
  apply bind_Exit.
  erewrite bind_Ret by reflexivity; cbn [platform console calls].
  erewrite createDeployment_rejected by exact H4.
  subst before lookups createNew notFound. cbn [app].
  now rewrite <- !app_assoc.
Qed.

Section Found.

Variable id : string.
Hypothesis Hid : existingDeploymentIn toLowerCase (branch config) r1 = Some id.

Let found : list (Stream * string) :=
  [(Stdout, info_line ("Found existing deployment: " ++ id));
   (Stdout, info_line ("Redeploying existing deployment (ID: " ++ id ++ ")..."))].

Let redeploy := CreateDeployment (Redeploy id "preview").

Let fallingBack : list (Stream * string) :=
  [(Stdout, warn_line "Failed to redeploy existing deployment, creating new one instead...");
   (Stdout, info_line "Creating new deployment...")].

Lemma main_redeployed r p4 :
  deployments_createDeployment vercel_com vercel (Redeploy id "preview") p3
    = (Fulfilled r, p4) ->
  main toLowerCase vercel_com process_env (mkWorld p c cs)
  = (Ret tt,
     mkWorld p4
       (c ++ (before ++ found
                ++ deployedLines "Redeployment triggered successfully!"
                     "Redeployment triggered successfully" r)
          ++ [completedLine])%list
       (cs ++ lookups ++ [redeploy])%list).
Proof.
  intros H4. apply try_catch_Ret. enter_main Hv.
  next_by ltac:(apply checkExistingDeployment_fulfilled; exact H1).
  next_by ltac:(apply getEnvVarId_fulfilled; exact H2).
  next_by ltac:(apply updateEnvVar_fulfilled; exact H3).
  fold config. rewrite Hid, (existingDeploymentIn_truthy _ _ _ Hid). cbn [JS.narrow].
  next_by ltac:(erewrite bind_Ret by reflexivity; cbn [platform console calls];
                apply redeployExisting_fulfilled; exact H4).
  unfold log, console_log. cbn [platform console calls].
  subst before lookups redeploy found. cbn [app].
  now rewrite <- !app_assoc.
Qed.

Lemma main_fell_back r err p4 p5 :
  deployments_createDeployment vercel_com vercel (Redeploy id "preview") p3
    = (Rejected err, p4) ->
  deployments_createDeployment vercel_com vercel
    (newDeploymentBody (projectId config) (branch config)) p4 = (Fulfilled r, p5) ->
  main toLowerCase vercel_com process_env (mkWorld p c cs)
  = (Ret tt,
     mkWorld p5
       (c ++ (before ++ found ++ fallingBack
                ++ deployedLines "New deployment created successfully!"
                     "Deployment triggered successfully" r)
          ++ [completedLine])%list
       (cs ++ lookups ++ [redeploy; createNew])%list).
Proof.
  intros H4 H5. apply try_catch_Ret. enter_main Hv.
  next_by ltac:(apply checkExistingDeployment_fulfilled; exact H1).
  next_by ltac:(apply getEnvVarId_fulfilled; exact H2).
  next_by ltac:(apply updateEnvVar_fulfilled; exact H3).
  fold config. rewrite Hid, (existingDeploymentIn_truthy _ _ _ Hid). cbn [JS.narrow].
  next_by ltac:(erewrite bind_Ret by reflexivity; cbn [platform console calls];
                rewrite (redeployExisting_rejected _ _ _ _ _ _ _ Hv H4);
                apply createDeployment_fulfilled; exact H5).
  unfold log, console_log. cbn [platform console calls].
  subst before lookups redeploy createNew found fallingBack. cbn [app].
  now rewrite <- !app_assoc.
Qed.

Lemma main_fallback_rejected err err' p4 p5 :
  deployments_createDeployment vercel_com vercel (Redeploy id "preview") p3
    = (Rejected err, p4) ->
  deployments_createDeployment vercel_com vercel
    (newDeploymentBody (projectId config) (branch config)) p4 = (Rejected err', p5) ->
  main toLowerCase vercel_com process_env (mkWorld p c cs)
  = (Exit 1,
     mkWorld p5
       (c ++ (before ++ found ++ fallingBack)
          ++ [(Stderr, error_line ("Failed to create new deployment: " ++ err'))])%list
       (cs ++ lookups ++ [redeploy; createNew])%list).
Proof.
  intros H4 H5. apply try_catch_Exit. enter_main Hv.
  next_by ltac:(apply checkExistingDeployment_fulfilled; exact H1).
  next_by ltac:(apply getEnvVarId_fulfilled; exact H2).
  next_by ltac:(apply updateEnvVar_fulfilled; exact H3).
  fold config. rewrite Hid, (existingDeploymentIn_truthy _ _ _ Hid). cbn [JS.narrow].
  apply bind_Exit.
  erewrite bind_Ret by reflexivity; cbn [platform console calls].
  rewrite (redeployExisting_rejected _ _ _ _ _ _ _ Hv H4).
  erewrite createDeployment_rejected by exact H5.
  subst before lookups redeploy createNew found fallingBack. cbn [app].
  now rewrite <- !app_assoc.
Qed.

End Found.
End Upserted.
End Looked.
End Listed.
End ValidRun.

Set Default Proof Using "Type".

(** ** Every run of [main] *)

Lemma upsertRequest_is_env_mutation projectId envVarId url :
  is_env_mutation (upsertRequest projectId envVarId url) = true.
Proof. unfold upsertRequest. now destruct (JS.opt_truthy envVarId). Qed.

Lemma upsertRequest_is_no_deployment projectId envVarId url :
  is_deployment_request (upsertRequest projectId envVarId url) = false.
Proof. unfold upsertRequest. now destruct (JS.opt_truthy envVarId). Qed.

Lemma startLines_stdout config : Forall on_stdout (startLines config).
Proof. repeat constructor. Qed.

Ltac stdout_lines :=
  repeat (apply Forall_app; split);
  repeat (apply Forall_cons; [first [reflexivity | apply upsertBefore_stdout
                                    | apply upsertAfter_stdout] |]);
  try apply Forall_nil;
  auto using deployedLines_stdout, startLines_stdout.

Ltac count_requests :=
  cbn [sent app Datatypes.length filter is_env_mutation is_deployment_request];
  rewrite ?upsertRequest_is_env_mutation, ?upsertRequest_is_no_deployment;
  cbn [Datatypes.length]; apply Nat.leb_le; reflexivity.

Ltac exited :=
  split; [count_requests | split; [count_requests | split; [count_requests |]]];
  right; split; [reflexivity|]; do 2 eexists; split; [reflexivity | stdout_lines].

Ltac returned :=
  split; [count_requests | split; [count_requests | split; [count_requests |]]];
  left; split; [reflexivity|];
  split; [cbn [printed]; stdout_lines; repeat constructor
         | split; [cbn [printed]; apply last_last | eexists; reflexivity]].

(** Every run of [main] has one of the shapes of [well_formed_run]. *)
Lemma main_run p c cs :
  exists r w',
    main toLowerCase vercel_com process_env (mkWorld p c cs) = (outcome r, w')
    /\ calls w' = (cs ++ sent r)%list
    /\ console w' = (c ++ printed r)%list
    /\ well_formed_run r.
Proof.
  destruct (firstMissing process_env) as [v|] eqn:Hm.
  { exists {| outcome := Exit 1; sent := [];
              printed := [] ++ [(Stderr, error_line
                                  ("Missing required environment variable: " ++ v))] |}.
    eexists. split; [apply main_missing; exact Hm|].
    split; [reflexivity|split; [reflexivity|]]. exited. }
  apply firstMissing_None in Hm.
  set (config := config_of_env process_env).
  set (vercel := initializeVercel (token config)).
  destruct (deployments_getDeployments vercel_com vercel (projectId config) 50 p)
    as [[r1|e1] p1] eqn:H1.
  2:{ eexists {| outcome := Exit 1; printed := _ ++ [(Stderr, error_line _)] |}. eexists.
      split; [apply (main_listing_rejected Hm _ _ _ _ _ H1)|].
      split; [reflexivity|split; [reflexivity|]]. exited. }
  destruct (projects_getEnvironmentVariables vercel_com vercel (projectId config) p1)
    as [[r2|e2] p2] eqn:H2.
  2:{ eexists {| outcome := Exit 1; printed := _ ++ [(Stderr, error_line _)] |}. eexists.
      split; [apply (main_variables_rejected Hm _ _ _ _ _ H1 _ _ H2)|].
      split; [reflexivity|split; [reflexivity|]]. exited. }
  destruct (upsertAnswer vercel_com vercel (projectId config) (envVarIdIn r2)
              (targetApiUrl config) p2) as [[[]|e3] p3] eqn:H3.
  2:{ eexists {| outcome := Exit 1; printed := _ ++ [(Stderr, error_line _)] |}. eexists.
      split; [apply (main_upsert_rejected Hm _ _ _ _ _ H1 _ _ H2 _ _ H3)|].
      split; [reflexivity|split; [reflexivity|]]. exited. }
  destruct (existingDeploymentIn toLowerCase (branch config) r1) as [id|] eqn:Hid.
  - destruct (deployments_createDeployment vercel_com vercel (Redeploy id "preview") p3)
      as [[r4|e4] p4] eqn:H4.
    + eexists {| outcome := Ret tt; printed := _ ++ [completedLine] |}. eexists.
      split; [apply (main_redeployed Hm _ _ _ _ _ H1 _ _ H2 _ H3 _ Hid _ _ H4)|].
      split; [reflexivity|split; [reflexivity|]]. returned.
    + destruct (deployments_createDeployment vercel_com vercel
                  (newDeploymentBody (projectId config) (branch config)) p4)
        as [[r5|e5] p5] eqn:H5.
      * eexists {| outcome := Ret tt; printed := _ ++ [completedLine] |}. eexists.
        split; [apply (main_fell_back Hm _ _ _ _ _ H1 _ _ H2 _ H3 _ Hid _ _ _ _ H4 H5)|].
        split; [reflexivity|split; [reflexivity|]]. returned.
      * eexists {| outcome := Exit 1; printed := _ ++ [(Stderr, error_line _)] |}. eexists.
        split; [apply (main_fallback_rejected Hm _ _ _ _ _ H1 _ _ H2 _ H3 _ Hid _ _ _ _ H4 H5)|].
        split; [reflexivity|split; [reflexivity|]]. exited.
  - destruct (deployments_createDeployment vercel_com vercel
                (newDeploymentBody (projectId config) (branch config)) p3)
      as [[r4|e4] p4] eqn:H4.
    + eexists {| outcome := Ret tt; printed := _ ++ [completedLine] |}. eexists.
      split; [apply (main_created Hm _ _ _ _ _ H1 _ _ H2 _ H3 _ _ Hid H4)|].
      split; [reflexivity|split; [reflexivity|]]. returned.
    + eexists {| outcome := Exit 1; printed := _ ++ [(Stderr, error_line _)] |}. eexists.
      split; [apply (main_create_rejected Hm _ _ _ _ _ H1 _ _ H2 _ H3 _ _ Hid H4)|].
      split; [reflexivity|split; [reflexivity|]]. exited.
Qed.

(** X1.  Whatever the environment and the platform, [main] never ends in an
    uncaught exception: it returns normally or ends the process with exit
    status 1, and with no other status. *)
Theorem main_never_throws (w : World P) :
  fst (main toLowerCase vercel_com process_env w) = Ret tt
  \/ fst (main toLowerCase vercel_com process_env w) = Exit 1.
Proof.
  destruct w as [p c cs].
  destruct (main_run p c cs) as (r & w' & -> & _ & _ & _ & _ & _ & H).
  cbn [fst]. destruct H as [(-> & _)|(-> & _)]; [now left | now right].
Qed.

(** X2.  A run of [main] only adds to the trace of requests, and adds at
    most five: at most one of them creates or edits an environment variable
    and at most two ask for a deployment. *)
Theorem main_request_budget (w : World P) :
  exists sent,
    calls (snd (main toLowerCase vercel_com process_env w)) = (calls w ++ sent)%list
    /\ length sent <= 5
    /\ length (filter is_env_mutation sent) <= 1
    /\ length (filter is_deployment_request sent) <= 2.
Proof.
  destruct w as [p c cs].
  destruct (main_run p c cs) as (r & w' & -> & Hc & _ & H5 & H1 & H2 & _).
  exists (sent r). now repeat split.
Qed.

(** X3.  A run of [main] only adds to the console.  When it returns
    normally, every added line is on the standard stream and the last one
    is the completion line; when it exits with status 1, exactly one added
    line is on the error stream, it is an [ERROR] line, and it is the last
    line printed. *)
Theorem main_error_stream (w : World P) :
  exists printed,
    console (snd (main toLowerCase vercel_com process_env w)) = (console w ++ printed)%list
    /\ (fst (main toLowerCase vercel_com process_env w) = Ret tt ->
        Forall on_stdout printed /\ last printed (Stderr, "") = completedLine)
    /\ (fst (main toLowerCase vercel_com process_env w) = Exit 1 ->
        exists front message,
          printed = (front ++ [(Stderr, error_line message)])%list
          /\ Forall on_stdout front).
Proof.
  destruct w as [p c cs].
  destruct (main_run p c cs) as (r & w' & -> & _ & Hc & _ & _ & _ & H).
  exists (printed r). cbn [fst snd]. split; [exact Hc|].
  destruct H as [(-> & Hout & Hlast & _)|(-> & Hexit)].
  - split; [now intros _ | discriminate].
  - split; [discriminate | now intros _].
Qed.

(** X4.  When [main] returns normally, the last request it sent asks for a
    deployment (a redeploy or a new deployment). *)
Theorem main_returns_after_deployment (w : World P) :
  fst (main toLowerCase vercel_com process_env w) = Ret tt ->
  exists before body,
    calls (snd (main toLowerCase vercel_com process_env w))
    = (calls w ++ before ++ [CreateDeployment body])%list.
Proof.
  destruct w as [p c cs].
  destruct (main_run p c cs) as (r & w' & -> & Hc & _ & _ & _ & _ & H).
  cbn [fst snd calls]. intros Hret.
  destruct H as [(_ & _ & _ & body & Hlast)|(Hexit & _)]; [|congruence].
  destruct (sent r) as [|q qs] eqn:Hs; [discriminate Hlast|].
  exists (removelast (q :: qs)), body.
  rewrite Hc, <- Hlast. f_equal. apply app_removelast_last. discriminate.
Qed.

(** X5.  [validateEnvironment] reports the first missing variable in the
    order of [requiredVars] and nothing else: when every variable before
    [v] in that list is set and [v] is not, it prints the one line naming
    [v] on the error stream and ends the process with exit status 1,
    whatever the variables after [v] are. *)
Theorem validateEnvironment_reports_first_missing pre v post p c cs :
  requiredVars = (pre ++ v :: post)%list ->
  (forall x, In x pre -> JS.opt_truthy (process_env x) = true) ->
  JS.opt_truthy (process_env v) = false ->
  validateEnvironment process_env (mkWorld p c cs)
  = (Exit 1,
     mkWorld (P:=P) p
       (c ++ [(Stderr, error_line ("Missing required environment variable: " ++ v))])%list
       cs).
Proof.
  intros Hsplit Hpre Hv. unfold validateEnvironment.
  apply for_of_required_missing. rewrite Hsplit. apply find_first.
  - intros y Hy. now rewrite (Hpre y Hy).
  - now rewrite Hv.
Qed.

(** X6.  [validateEnvironment] returns, without printing and without
    touching the world, exactly when each of the four required variables
    is set to a non-empty string. *)
Theorem validateEnvironment_passes_iff (w : World P) :
  validateEnvironment process_env w = (Ret tt, w)
  <-> (forall x, In x requiredVars -> exists s, process_env x = Some s /\ s <> "").
Proof.
  split.
  - intros Hrun x Hx.
    destruct (firstMissing process_env) as [v|] eqn:Hm.
    + destruct w as [p c cs]. unfold validateEnvironment in Hrun.
      rewrite (for_of_required_missing _ v p c cs Hm) in Hrun. discriminate Hrun.
    + apply firstMissing_None in Hm. unfold env_valid in Hm.
      rewrite forallb_forall in Hm. specialize (Hm x Hx).
      destruct (process_env x) as [s|]; [|discriminate Hm].
      exists s. split; [reflexivity|]. now apply truthy_spec.
  - intros Hall. apply for_of_required_ok. apply forallb_forall.
    intros x Hx. destruct (Hall x Hx) as (s & -> & Hs). now apply truthy_spec.
Qed.

(** X7.  When [getConfig] returns a configuration it has printed nothing
    and sent nothing, the four fields are the values of the four variables,
    none of them is empty, and the target URL is built from the branch. *)
Theorem getConfig_fields (w w' : World P) config :
  getConfig process_env w = (Ret config, w') ->
  w' = w
  /\ process_env "VERCEL_TOKEN" = Some (token config) /\ token config <> ""
  /\ process_env "VERCEL_PROJECT_ID" = Some (projectId config) /\ projectId config <> ""
  /\ process_env "VERCEL_ORG_ID" = Some (orgId config) /\ orgId config <> ""
  /\ process_env "FE_BRANCH" = Some (branch config) /\ branch config <> ""
  /\ targetApiUrl config
     = "https://api.pr-" ++ branch config ++ ".deploy-preview.mrdibre.com".
Proof.
  intros Hrun.
  destruct (firstMissing process_env) as [v|] eqn:Hm.
  { destruct w as [p c cs]. rewrite (getConfig_missing v p c cs Hm) in Hrun.
    discriminate Hrun. }
  apply firstMissing_None in Hm. rewrite (getConfig_ok w Hm) in Hrun.
  injection Hrun as <- <-. unfold env_valid in Hm. rewrite forallb_forall in Hm.
  assert (forall x, In x requiredVars ->
            process_env x = Some (env_get process_env x) /\ env_get process_env x <> "")
    as Hget.
  { intros x Hx. specialize (Hm x Hx). unfold env_get.
    destruct (process_env x) as [s|]; [|discriminate Hm].
    split; [reflexivity|]. now apply truthy_spec. }
  split; [reflexivity|]. unfold config_of_env.
  cbn [token projectId orgId branch targetApiUrl].
  destruct (Hget "VERCEL_TOKEN") as [? ?]; [simpl; tauto|].
  destruct (Hget "VERCEL_PROJECT_ID") as [? ?]; [simpl; tauto|].
  destruct (Hget "VERCEL_ORG_ID") as [? ?]; [simpl; tauto|].
  destruct (Hget "FE_BRANCH") as [Hb ?]; [simpl; tauto|].
  repeat split; try assumption. now rewrite Hb.
Qed.

(** X8.  Whatever [checkExistingDeployment] returns as an identifier is
    not empty and is the identifier of a listed deployment that matches
    the branch and is READY or BUILDING: deployments in any other state,
    or without a state, are never returned. *)
Theorem checkExistingDeployment_sound vercel projectId B w id w' :
  checkExistingDeployment toLowerCase vercel_com vercel projectId B w = (Ret (Some id), w') ->
  id <> ""
  /\ exists r L d p',
       deployments_getDeployments vercel_com vercel projectId 50 (platform w)
         = (Fulfilled r, p')
       /\ deployments r = Some L
       /\ In d L
       /\ d_uid d = id
       /\ Selectable toLowerCase B d.
Proof.
  destruct w as [p c cs]. cbn [platform].
  destruct (deployments_getDeployments vercel_com vercel projectId 50 p)
    as [[r|err] p'] eqn:H.
  - rewrite (checkExistingDeployment_fulfilled _ _ B _ c cs _ _ H).
    intros [= Hid _]. unfold existingDeploymentIn in Hid.
    destruct (deployments r) as [L|] eqn:HL; [|discriminate Hid].
    apply or_null_Some in Hid as [Hfind Htruthy].
    destruct (find _ L) as [d|] eqn:Hd; [|discriminate Hfind].
    injection Hfind as Hfind. apply find_some in Hd as [Hin Hsel].
    split; [now apply truthy_spec|].
    exists r, L, d, p'.
    refine (conj eq_refl (conj HL (conj Hin (conj Hfind _)))).
    now apply selectable_spec.
  - rewrite (checkExistingDeployment_rejected _ _ B _ c cs _ _ H). discriminate.
Qed.

(** X9.  Whatever [getEnvVarId] returns as an identifier is not empty and
    is the identifier of a listed variable whose key is VITE_API_URL. *)
Theorem getEnvVarId_sound vercel projectId w id w' :
  getEnvVarId vercel_com vercel projectId w = (Ret (Some id), w') ->
  id <> ""
  /\ exists r es e p',
       projects_getEnvironmentVariables vercel_com vercel projectId (platform w)
         = (Fulfilled r, p')
       /\ envs r = Some es
       /\ In e es
       /\ e_id e = id
       /\ e_key e = "VITE_API_URL".
Proof.
  destruct w as [p c cs]. cbn [platform].
  destruct (projects_getEnvironmentVariables vercel_com vercel projectId p)
    as [[r|err] p'] eqn:H.
  - rewrite (getEnvVarId_fulfilled _ _ _ c cs _ _ H).
    intros [= Hid _]. unfold envVarIdIn in Hid.
    destruct (envs r) as [es|] eqn:Hes; [|discriminate Hid].
    apply or_null_Some in Hid as [Hfind Htruthy].
    destruct (find _ es) as [e|] eqn:He; [|discriminate Hfind].
    injection Hfind as Hfind. apply find_some in He as [Hin Hkey].
    split; [now apply truthy_spec|].
    exists r, es, e, p'.
    refine (conj eq_refl (conj Hes (conj Hin (conj Hfind _)))).
    now apply String.eqb_eq.
  - rewrite (getEnvVarId_rejected _ _ _ c cs _ _ H). discriminate.
Qed.

(** X10.  With a valid configuration, both listings and the upsert
    fulfilled and an existing deployment [id] found: when the redeploy
    request is fulfilled [main] returns normally, the redeploy is the last
    of exactly four requests (no new deployment is created), and nothing
    is printed on the error stream. *)
Theorem redeploy_success p c cs r1 p1 id r2 p2 p3 r4 p4 :
  env_valid process_env = true ->
  let config := config_of_env process_env in
  let vercel := initializeVercel (token config) in
  deployments_getDeployments vercel_com vercel (projectId config) 50 p
    = (Fulfilled r1, p1) ->
  existingDeploymentIn toLowerCase (branch config) r1 = Some id ->
  projects_getEnvironmentVariables vercel_com vercel (projectId config) p1
    = (Fulfilled r2, p2) ->
  upsertAnswer vercel_com vercel (projectId config) (envVarIdIn r2) (targetApiUrl config) p2
    = (Fulfilled tt, p3) ->
  deployments_createDeployment vercel_com vercel (Redeploy id "preview") p3
    = (Fulfilled r4, p4) ->
  exists w' printed,
    main toLowerCase vercel_com process_env (mkWorld p c cs) = (Ret tt, w')
    /\ platform w' = p4
    /\ calls w'
       = (cs ++ [GetDeployments (projectId config) 50;
                 GetEnvironmentVariables (projectId config);
                 upsertRequest (projectId config) (envVarIdIn r2) (targetApiUrl config);
                 CreateDeployment (Redeploy id "preview")])%list
    /\ console w' = (c ++ printed)%list
    /\ Forall on_stdout printed.
Proof.
  intros Hv config vercel H1 Hid H2 H3 H4. do 2 eexists.
  split; [apply (main_redeployed Hv _ _ _ _ _ H1 _ _ H2 _ H3 _ Hid _ _ H4)|].
  split; [reflexivity|split; [reflexivity|split; [reflexivity|]]].
  stdout_lines; repeat constructor.
Qed.

(** X11.  With a valid configuration, both listings and the upsert
    fulfilled and no existing deployment found: the create-new request is
    the fourth and last request; when it is fulfilled [main] returns
    normally, when it is rejected [main] prints the failure and ends the
    process with exit status 1, without any retry. *)
Theorem create_new_ends_the_run p c cs r1 p1 r2 p2 p3 :
  env_valid process_env = true ->
  let config := config_of_env process_env in
  let vercel := initializeVercel (token config) in
  deployments_getDeployments vercel_com vercel (projectId config) 50 p
    = (Fulfilled r1, p1) ->
  existingDeploymentIn toLowerCase (branch config) r1 = None ->
  projects_getEnvironmentVariables vercel_com vercel (projectId config) p1
    = (Fulfilled r2, p2) ->
  upsertAnswer vercel_com vercel (projectId config) (envVarIdIn r2) (targetApiUrl config) p2
    = (Fulfilled tt, p3) ->
  let trace :=
    (cs ++ [GetDeployments (projectId config) 50;
            GetEnvironmentVariables (projectId config);
            upsertRequest (projectId config) (envVarIdIn r2) (targetApiUrl config);
            CreateDeployment (newDeploymentBody (projectId config) (branch config))])%list in
  (forall r p4,
      deployments_createDeployment vercel_com vercel
        (newDeploymentBody (projectId config) (branch config)) p3 = (Fulfilled r, p4) ->
      exists w',
        main toLowerCase vercel_com process_env (mkWorld p c cs) = (Ret tt, w')
        /\ calls w' = trace)
  /\
  (forall err p4,
      deployments_createDeployment vercel_com vercel
        (newDeploymentBody (projectId config) (branch config)) p3 = (Rejected err, p4) ->
      exists w',
        main toLowerCase vercel_com process_env (mkWorld p c cs) = (Exit 1, w')
        /\ calls w' = trace
        /\ last (console w') (Stdout, "")
           = (Stderr, error_line ("Failed to create new deployment: " ++ err))).
Proof.
  intros Hv config vercel H1 Hid H2 H3 trace. split.
  - intros r p4 H4. eexists.
    split; [apply (main_created Hv _ _ _ _ _ H1 _ _ H2 _ H3 _ _ Hid H4)|reflexivity].
  - intros err p4 H4. eexists.
    split; [apply (main_create_rejected Hv _ _ _ _ _ H1 _ _ H2 _ H3 _ _ Hid H4)|].
    split; [reflexivity|]. cbn [console]. rewrite app_assoc. apply last_last.
Qed.

(** X12.  A fulfilled create-new request never fails [createDeployment]:
    when the response carries no URL, or an empty one, it prints
    "Deployment triggered successfully" after the announcement and returns
    normally; when it carries a URL it prints that URL behind "https://". *)
Theorem createDeployment_fulfilled_returns vercel projectId B p c cs r p' :
  deployments_createDeployment vercel_com vercel (newDeploymentBody projectId B) p
    = (Fulfilled r, p') ->
  exists w',
    createDeployment vercel_com vercel projectId B (mkWorld p c cs) = (Ret tt, w')
    /\ (r_url r = None \/ r_url r = Some "" ->
        console w'
        = (c ++ [(Stdout, info_line "Creating new deployment...");
                 (Stdout, info_line "Deployment triggered successfully")])%list)
    /\ (forall u, r_url r = Some u -> u <> "" ->
        console w'
        = (c ++ [(Stdout, info_line "Creating new deployment...");
                 (Stdout, info_line "New deployment created successfully!");
                 (Stdout, info_line ("Deployment URL: https://" ++ u));
                 (Stdout, info_line ("Deployment ID: " ++ JS.interpolate (r_uid r)))])%list).
Proof.
  intros H. eexists. split; [apply createDeployment_fulfilled; exact H|].
  cbn [console]. unfold deployedLines. split.
  - intros [E|E]; now rewrite E.
  - intros u E Hu. rewrite E. cbn [JS.opt_truthy JS.interpolate].
    apply truthy_spec in Hu. now rewrite Hu.
Qed.

End ScriptFacts.

(** ** The jq selection of [vercel.sh] *)

Module JqFacts.

Import Jq.

Lemma field_one key v : one_or_stop (fun _ => True) (field key v).
Proof. destruct v; cbn; unfold one_or_stop; eauto. Qed.

Lemma pipe_one (Q R : json -> Prop) (f g : filter) v :
  one_or_stop Q (f v) ->
  (forall a, Q a -> one_or_stop R (g a)) ->
  one_or_stop R (pipe f g v).
Proof.
  intros [(a & Hf & Ha)|(e & Hf)] Hg; unfold pipe; rewrite Hf; cbn [for_each].
  - destruct (Hg a Ha) as [(b & -> & Hb)|(e & ->)]; cbn; [left|right]; eauto.
  - right; eauto.
Qed.

Lemma pipe_stops (Q : json -> Prop) (f g : filter) v :
  one_or_stop Q (f v) ->
  (forall a, Q a -> stops (g a)) ->
  stops (pipe f g v).
Proof.
  intros [(a & Hf & Ha)|(e & Hf)] Hg; unfold pipe; rewrite Hf; cbn [for_each].
  - destruct (Hg a Ha) as (e & ->). now exists e.
  - now exists e.
Qed.

Lemma eq_string_one (Q : json -> Prop) f s v :
  one_or_stop Q (f v) -> one_or_stop is_bool (eq_string f s v).
Proof.
  intros Hf. unfold eq_string. eapply pipe_one; [exact Hf|].
  intros a _. left. eexists. split; [reflexivity|]. now eexists.
Qed.

Lemma or_one (Q R : json -> Prop) f g v :
  one_or_stop Q (f v) -> one_or_stop R (g v) -> one_or_stop is_bool (or f g v).
Proof.
  intros Hf Hg. unfold or. eapply pipe_one; [exact Hf|].
  intros a _. destruct (truthy a).
  - left. eexists. split; [reflexivity|]. now eexists.
  - eapply pipe_one; [exact Hg|].
    intros b _. left. eexists. split; [reflexivity|]. now eexists.
Qed.

Lemma select_stops f v : stops (f v) -> stops (select f v).
Proof. intros (e & Hf). unfold select, pipe. rewrite Hf. now exists e. Qed.

Lemma for_each_stops (g : filter) vs :
  (forall v, stops (g v)) -> fst (for_each vs g) = [].
Proof.
  intros Hg. destruct vs as [|v vs]; [reflexivity|].
  cbn [for_each]. now destruct (Hg v) as [e ->].
Qed.

Section FilterFacts.
Variable regex_test : string -> string -> option bool.

Lemma test_bool_stops re v : is_bool v -> stops (test regex_test re v).
Proof. intros [b ->]. now eexists. Qed.

(** The first [select] stops with an error on every input: its condition
    pipes the boolean of [or] into [test]. *)
Lemma first_select_stops branch v :
  stops (select
           (pipe (or (eq_string (pipe (field "meta") (field "githubCommitRef")) branch)
                     (field "name"))
                 (test regex_test branch)) v).
Proof.
  apply select_stops.
  eapply pipe_stops; [|intros a; apply test_bool_stops].
  eapply or_one; [|apply field_one].
  eapply eq_string_one, pipe_one; [apply field_one|].
  intros m _. apply field_one.
Qed.

Lemma jq_emits_nothing branch response :
  fst (check_existing_deployment_jq regex_test branch response) = [].
Proof.
  unfold check_existing_deployment_jq.
  unfold pipe at 1.
  destruct (pipe (field "deployments") iterate_opt response) as [vs stopped].
  match goal with |- context [for_each vs ?g] =>
    pose proof (for_each_stops g vs) as H; destruct (for_each vs g) as [out [e|]] end.
  all: cbn [fst] in *; apply H; intros v;
    destruct (first_select_stops branch v) as [e' He'];
    exists e'; unfold pipe at 1; now rewrite He'.
Qed.
End FilterFacts.
End JqFacts.

(** ** The shell script *)

Module ShFacts.

Import Sh.
Local Open Scope sh_scope.

Lemma append_empty_r (s : string) : s ++ "" = s.
Proof. induction s as [|c s IH]; cbn; [reflexivity | now rewrite IH]. Qed.

Lemma append_assoc (s t u : string) : (s ++ t) ++ u = s ++ t ++ u.
Proof. induction s as [|c s IH]; cbn; [reflexivity | now rewrite IH]. Qed.

Lemma captured_starts (c : ascii) (rest : string) :
  nat_of_ascii c <> 0 ->
  c <> newline ->
  exists rest', captured (String c rest) = String c rest'.
Proof.
  intros Hnul Hnl. unfold captured. cbn [drop_nul].
  apply Nat.eqb_neq in Hnul. rewrite Hnul. cbn [strip_trailing_newlines].
  apply Ascii.eqb_neq in Hnl. rewrite Hnl. cbn [andb]. eauto.
Qed.

Lemma captured_app_starts (c : ascii) (rest more : string) :
  nat_of_ascii c <> 0 ->
  c <> newline ->
  (captured (String c rest ++ more) =? "") = false.
Proof.
  intros Hnul Hnl.
  destruct (captured_starts c (rest ++ more) Hnul Hnl) as [r Hr].
  cbn [append]. now rewrite Hr.
Qed.

Section Commands.

Context {R A B : Type}.

Set Default Proof Using "Type".

Lemma bind_Done (m : Cmd R A) (k : A -> Cmd R B) s a s' :
  m s = (Done a, s') -> Sh.bind m k s = k a s'.
Proof. unfold Sh.bind. now intros ->. Qed.

Lemma bind_Exited (m : Cmd R A) (k : A -> Cmd R B) s code s' :
  m s = (Exited code, s') -> Sh.bind m k s = (Exited code, s').
Proof. unfold Sh.bind. now intros ->. Qed.

Lemma assign_substitution_Done (command : Cmd R A) r out cs a s' :
  command (mkShell r "" cs) = (Done a, s') ->
  assign_substitution command (mkShell r out cs)
  = (Done (captured (stdout s')), mkShell (remote s') out (curls s')).
Proof.
  intros H. unfold assign_substitution, substitution, Sh.bind.
  cbn [remote stdout curls]. rewrite H. reflexivity.
Qed.

End Commands.

Ltac sh_run :=
  cbv beta iota zeta delta
    [Sh.bind Sh.ret write Sh.exit substitution local_substitution assign_substitution
     Sh.log Sh.warn Sh.error api_call jq_n remote stdout curls fst snd negb Z.eqb].

Ltac sh_norm :=
  repeat match goal with
         | |- context [EmptyString ++ ?x] => change (EmptyString ++ x) with x
         end.

Section ShScriptFacts.

Context {R : Type}.
Variable curl : Curl -> R -> string * R.
Variable echo : string -> string.
Variable echo_e : string -> string.
Variable jq_installed : bool.
Variable jq_inputs : string -> list Jq.json.
Variable jq_print : Jq.json -> string.
Variable jq_print_raw : Jq.json -> string.
Variable regex_test : string -> string -> option bool.
Variable environment : string -> option string.

Set Default Proof Using "Type".

(** The selection of [check_existing_deployment] prints nothing. *)
Lemma jq_r_selection_empty branch input :
  jq_r jq_inputs jq_print_raw (Jq.check_existing_deployment_jq regex_test branch) input = "".
Proof.
  unfold jq_r.
  assert (flat_map (fun i => fst (Jq.check_existing_deployment_jq regex_test branch i))
            (jq_inputs input) = []) as ->; [|reflexivity].
  induction (jq_inputs input) as [|v vs IH]; cbn [flat_map]; [reflexivity|].
  now rewrite JqFacts.jq_emits_nothing, IH.
Qed.

Lemma check_existing_deployment_run s :
  let request :=
    curl_args environment "GET"
      ("/v6/deployments?projectId=" ++ VERCEL_PROJECT_ID environment ++ "&limit=50") "" in
  check_existing_deployment curl echo echo_e jq_inputs jq_print_raw regex_test environment s
  = (Done tt,
     mkShell (snd (curl request (remote s)))
       (stdout s ++ info echo_e "Checking for existing deployments...")
       (curls s ++ [request])%list).
Proof.
  intros request. destruct s as [r out cs].
  unfold check_existing_deployment. sh_run. fold request.
  destruct (curl request r) as [body remote']. sh_run.
  rewrite jq_r_selection_empty. cbn [head_1].
  now rewrite append_empty_r.
Qed.


Lemma get_env_var_id_run s :
  let request :=
    curl_args environment "GET"
      ("/v9/projects/" ++ VERCEL_PROJECT_ID environment ++ "/env") "" in
  get_env_var_id curl echo echo_e jq_inputs jq_print_raw environment s
  = (Done tt,
     mkShell (snd (curl request (remote s)))
       (stdout s
          ++ info echo_e "Fetching VITE_API_URL environment variable ID..."
          ++ head_1 (jq_r jq_inputs jq_print_raw get_env_var_id_jq
                       (echo (captured (fst (curl request (remote s)))))))
       (curls s ++ [request])%list).
Proof.
  intros request. destruct s as [r out cs].
  unfold get_env_var_id. sh_run. fold request.
  destruct (curl request r) as [body remote']. sh_run.
  now rewrite append_assoc.
Qed.

Lemma update_env_var_run env_var_id r out cs :
  let request :=
    if env_var_id =? ""
    then curl_args environment "POST"
           ("/v10/projects/" ++ VERCEL_PROJECT_ID environment ++ "/env")
           (captured (jq_print (env_object (TARGET_API_URL environment)) ++ nl))
    else curl_args environment "PATCH"
           ("/v9/projects/" ++ VERCEL_PROJECT_ID environment ++ "/env/" ++ env_var_id)
           (captured (jq_print (env_object (TARGET_API_URL environment)) ++ nl)) in
  exists out',
    update_env_var curl echo_e jq_print environment env_var_id (mkShell r out cs)
    = (Done tt, mkShell (snd (curl request r)) (out ++ out') (cs ++ [request])%list).
Proof.
  intros request. subst request. unfold update_env_var.
  destruct (env_var_id =? ""); sh_run; sh_norm;
    match goal with |- context [curl ?q r] => destruct (curl q r) as [body remote'] end;
    sh_run; eexists; rewrite append_assoc; reflexivity.
Qed.

Lemma create_deployment_run r out cs :
  let request :=
    curl_args environment "POST" "/v13/deployments"
      (captured (jq_print (deploy_object (FE_BRANCH environment)
                             (VERCEL_PROJECT_ID environment)) ++ nl)) in
  exists out',
    create_deployment curl echo echo_e jq_inputs jq_print jq_print_raw environment
      (mkShell r out cs)
    = (Done tt, mkShell (snd (curl request r)) (out ++ out') (cs ++ [request])%list).
Proof.
  intros request. subst request. unfold create_deployment. sh_run. sh_norm.
  match goal with |- context [curl ?q r] => destruct (curl q r) as [body remote'] end.
  sh_run.
  match goal with |- context [if ?b then _ else _] => destruct b end;
    sh_run; eexists; rewrite ?append_assoc; reflexivity.
Qed.

Lemma redeploy_existing_run existing_deployment_id r out cs :
  let request :=
    curl_args environment "POST" "/v13/deployments"
      (captured (jq_print (redeploy_object existing_deployment_id) ++ nl)) in
  exists out',
    redeploy_existing curl echo echo_e jq_inputs jq_print jq_print_raw environment
      existing_deployment_id (mkShell r out cs)
    = (Done tt, mkShell (snd (curl request r)) (out ++ out') (cs ++ [request])%list).
Proof.
  intros request. subst request. unfold redeploy_existing. sh_run. sh_norm.
  match goal with |- context [curl ?q r] => destruct (curl q r) as [body remote'] end.
  sh_run.
  match goal with |- context [if ?b then _ else _] => destruct b end;
    sh_run; eexists; rewrite ?append_assoc; reflexivity.
Qed.

Lemma check_required_vars_ok (s : Shell R) :
  forallb (fun var => negb (expand environment var =? "")) required_vars = true ->
  check_required_vars echo_e environment s = (Done tt, s).
Proof.
  unfold check_required_vars. induction required_vars as [|v vars IH]; intros Hall.
  - reflexivity.
  - cbn [forallb] in Hall. apply andb_true_iff in Hall as [Hv Hrest].
    cbn [for_in]. apply negb_true_iff in Hv. rewrite Hv.
    now rewrite (bind_Done (Sh.ret tt) _ s tt s eq_refl), IH.
Qed.

Lemma check_required_vars_missing pre v post (r : R) out cs :
  (forall x, In x pre -> expand environment x <> "") ->
  expand environment v = "" ->
  for_in (pre ++ v :: post) (fun var =>
    if expand environment var =? ""
    then Sh.error echo_e ("Missing required environment variable: " ++ var)
    else Sh.ret tt) (mkShell r out cs)
  = (Exited 1,
     mkShell r
       (out ++ failure echo_e ("Missing required environment variable: " ++ v))
       cs).
Proof.
  intros Hpre Hv. induction pre as [|x pre IH]; cbn [app for_in].
  - rewrite Hv. reflexivity.
  - assert ((expand environment x =? "") = false) as ->
      by (apply String.eqb_neq, Hpre; now left).
    rewrite (bind_Done (Sh.ret tt) _ _ tt _ eq_refl). apply IH.
    intros y Hy. apply Hpre. now right.
Qed.


(** X13.  In [vercel.sh] the variable [existing_deployment] never holds a
    deployment identifier: the command substitution captures the line that
    [log] prints inside [check_existing_deployment], and the jq selection
    adds nothing to it, so the variable is that log line whatever the
    platform answers; the line itself never reaches the terminal. *)
Theorem existing_deployment_is_the_log_line (s : Shell R) :
  exists s',
    assign_substitution
      (check_existing_deployment curl echo echo_e jq_inputs jq_print_raw regex_test
         environment) s
    = (Done (captured (info echo_e "Checking for existing deployments...")), s')
    /\ stdout s' = stdout s
    /\ curls s'
       = (curls s
          ++ [curl_args environment "GET"
                ("/v6/deployments?projectId=" ++ VERCEL_PROJECT_ID environment
                   ++ "&limit=50") ""])%list.
Proof.
  destruct s as [r out cs].
  pose proof (check_existing_deployment_run (mkShell r "" cs)) as Hrun.
  cbv zeta in Hrun. cbn [remote stdout curls] in Hrun.
  rewrite (assign_substitution_Done _ r out cs tt _ Hrun).
  eexists. split; [reflexivity|]. split; reflexivity.
Qed.

(** X14.  Once the four variables are set and jq is installed, and given
    that [echo -e] starts an [INFO] line with the escape character that
    its colour code stands for, the script always takes the same path,
    whatever the platform answers: it lists the deployments, lists the
    variables, sends a PATCH for a variable identifier that is never empty
    and a POST that redeploys "by reference" to the captured log line, and
    ends normally.  It never creates a variable or a new deployment. *)
Theorem script_always_redeploys (s : Shell R) :
  jq_installed = true ->
  (forall var, In var required_vars -> expand environment var <> "") ->
  (forall message, exists rest,
      info echo_e message = String (ascii_of_nat 27) rest) ->
  exists s' env_var_id,
    script curl echo echo_e jq_installed jq_inputs jq_print jq_print_raw regex_test
      environment s = (Done tt, s')
    /\ env_var_id <> ""
    /\ captured (info echo_e "Checking for existing deployments...") <> ""
    /\ curls s'
       = (curls s
          ++ [curl_args environment "GET"
                ("/v6/deployments?projectId=" ++ VERCEL_PROJECT_ID environment
                   ++ "&limit=50") "";
              curl_args environment "GET"
                ("/v9/projects/" ++ VERCEL_PROJECT_ID environment ++ "/env") "";
              curl_args environment "PATCH"
                ("/v9/projects/" ++ VERCEL_PROJECT_ID environment ++ "/env/" ++ env_var_id)
                (captured (jq_print (env_object (TARGET_API_URL environment)) ++ nl));
              curl_args environment "POST" "/v13/deployments"
                (captured
                   (jq_print (redeploy_object
                         (captured (info echo_e "Checking for existing deployments...")))
                    ++ nl))])%list.
Proof.
  intros Hjq Hvars Hecho. destruct s as [r out cs].
  assert (forall message more, (captured (info echo_e message ++ more) =? "") = false) as Hinfo.
  { intros message more. destruct (Hecho message) as [rest ->].
    apply captured_app_starts; discriminate. }
  assert ((captured (info echo_e "Checking for existing deployments...") =? "") = false)
    as Hexisting.
  { rewrite <- (append_empty_r (info echo_e _)). apply Hinfo. }
  unfold script.
  erewrite bind_Done.
  2:{ apply check_required_vars_ok. apply forallb_forall. intros x Hx.
      apply negb_true_iff, String.eqb_neq, Hvars, Hx. }
  erewrite bind_Done by reflexivity. erewrite bind_Done by reflexivity.
  cbn [remote stdout curls].
  unfold Sh.main. rewrite Hjq. cbn [negb].
  erewrite bind_Done by reflexivity.
  erewrite bind_Done.
  2:{ erewrite assign_substitution_Done by apply check_existing_deployment_run.
      cbn [remote stdout curls]. reflexivity. }
  erewrite bind_Done.
  2:{ erewrite assign_substitution_Done by apply get_env_var_id_run.
      cbn [remote stdout curls]. reflexivity. }
  sh_norm.
  match goal with
  | |- context [Sh.bind (update_env_var _ _ _ _ ?id) _ (mkShell ?r3 ?o3 ?c3)] =>
      destruct (update_env_var_run id r3 o3 c3) as [out3 H3];
      assert ((id =? "") = false) as Hid by apply Hinfo;
      rewrite Hid in H3;
      erewrite bind_Done by exact H3;
      set (env_var_id := id) in *
  end.
  rewrite Hexisting. cbn [negb].
  match goal with
  | |- context [Sh.bind (Sh.bind (Sh.log _ ?m) _) _ (mkShell ?r4 ?o4 ?c4)] =>
      destruct (redeploy_existing_run (captured (info echo_e "Checking for existing deployments..."))
                  r4 (o4 ++ info echo_e m) c4)
        as [out4 H4]
  end.
  erewrite bind_Done.
  2:{ erewrite bind_Done by reflexivity. exact H4. }
  eexists. exists env_var_id. split; [reflexivity|].
  split; [now apply String.eqb_neq|].
  split; [now apply String.eqb_neq|].
  cbn [curls]. now rewrite <- !app_assoc.
Qed.

(** X15.  When a required variable is empty or not set, the script prints
    the [ERROR] line for the first such variable on its standard output
    and ends with status 1 before it runs curl or checks for jq. *)
Theorem script_missing_variable pre v post (s : Shell R) :
  required_vars = (pre ++ v :: post)%list ->
  (forall x, In x pre -> expand environment x <> "") ->
  expand environment v = "" ->
  script curl echo echo_e jq_installed jq_inputs jq_print jq_print_raw regex_test
    environment s
  = (Exited 1,
     mkShell (remote s)
       (stdout s ++ failure echo_e ("Missing required environment variable: " ++ v))
       (curls s)).
Proof.
  intros Hsplit Hpre Hv. destruct s as [r out cs]. unfold script.
  apply bind_Exited. unfold check_required_vars. rewrite Hsplit.
  now apply check_required_vars_missing.
Qed.

(** X17.  The script never notices a failed [api_call]: [$?] after
    [local response=$(...)] is always 0, so [update_env_var],
    [create_deployment] and [redeploy_existing] each run curl once and end
    normally whatever curl prints; [update_env_var] posts when the
    identifier is empty and patches otherwise, and [redeploy_existing]
    never falls back to [create_deployment]. *)
Theorem api_failures_go_unnoticed (s : Shell R) :
  (forall env_var_id, exists s',
      update_env_var curl echo_e jq_print environment env_var_id s = (Done tt, s')
      /\ curls s'
         = (curls s
            ++ [if env_var_id =? ""
                then curl_args environment "POST"
                       ("/v10/projects/" ++ VERCEL_PROJECT_ID environment ++ "/env")
                       (captured (jq_print (env_object (TARGET_API_URL environment)) ++ nl))
                else curl_args environment "PATCH"
                       ("/v9/projects/" ++ VERCEL_PROJECT_ID environment ++ "/env/"
                          ++ env_var_id)
                       (captured (jq_print (env_object (TARGET_API_URL environment)) ++ nl))])%list)
  /\
  (exists s',
      create_deployment curl echo echo_e jq_inputs jq_print jq_print_raw environment s
      = (Done tt, s')
      /\ curls s'
         = (curls s
            ++ [curl_args environment "POST" "/v13/deployments"
                  (captured (jq_print (deploy_object (FE_BRANCH environment)
                                         (VERCEL_PROJECT_ID environment)) ++ nl))])%list)
  /\
  (forall existing_deployment_id, exists s',
      redeploy_existing curl echo echo_e jq_inputs jq_print jq_print_raw environment
        existing_deployment_id s = (Done tt, s')
      /\ curls s'
         = (curls s
            ++ [curl_args environment "POST" "/v13/deployments"
                  (captured (jq_print (redeploy_object existing_deployment_id) ++ nl))])%list).
Proof.
  destruct s as [r out cs]. split; [|split].
  - intros id. destruct (update_env_var_run id r out cs) as [out' H].
    eexists. split; [exact H|reflexivity].
  - destruct (create_deployment_run r out cs) as [out' H].
    eexists. split; [exact H|reflexivity].
  - intros id. destruct (redeploy_existing_run id r out cs) as [out' H].
    eexists. split; [exact H|reflexivity].
Qed.

End ShScriptFacts.

(** The filter of [get_env_var_id] on one listed variable. *)
Lemma get_env_var_id_jq_item (e : EnvVar) :
  Jq.pipe (Jq.select (Jq.eq_string (Jq.field "key") "VITE_API_URL")) (Jq.field "id")
    (json_of_env e)
  = (if e_key e =? "VITE_API_URL" then [Jq.JString (e_id e)] else [], None).
Proof.
  unfold Jq.pipe, Jq.select, Jq.eq_string, Jq.pipe, Jq.field, json_of_env.
  cbn. destruct (e_key e =? "VITE_API_URL"); reflexivity.
Qed.

Lemma for_each_items (es : list EnvVar) :
  Jq.for_each (map json_of_env es)
    (Jq.pipe (Jq.select (Jq.eq_string (Jq.field "key") "VITE_API_URL")) (Jq.field "id"))
  = (map (fun e => Jq.JString (e_id e))
         (filter (fun e => e_key e =? "VITE_API_URL") es), None).
Proof.
  induction es as [|e es IH]; [reflexivity|].
  cbn [map Jq.for_each filter]. rewrite get_env_var_id_jq_item, IH.
  destruct (e_key e =? "VITE_API_URL"); reflexivity.
Qed.

(** X16.  On the JSON of a variable listing, the jq filter of
    [get_env_var_id] emits, in listing order and without error, the
    identifiers of exactly the variables whose key is VITE_API_URL; its
    first output is therefore the identifier of the record that the
    TypeScript [find] selects. *)
Theorem get_env_var_id_jq_selects (es : list EnvVar) :
  get_env_var_id_jq (json_of_envs {| envs := Some es |})
  = (map (fun e => Jq.JString (e_id e))
         (filter (fun e => e_key e =? "VITE_API_URL") es), None)
  /\ hd_error (fst (get_env_var_id_jq (json_of_envs {| envs := Some es |})))
     = option_map (fun e => Jq.JString (e_id e))
         (find (fun e => e_key e =? "VITE_API_URL") es).
Proof.
  assert (get_env_var_id_jq (json_of_envs {| envs := Some es |})
          = (map (fun e => Jq.JString (e_id e))
               (filter (fun e => e_key e =? "VITE_API_URL") es), None)) as Hrun.
  { unfold get_env_var_id_jq, json_of_envs. cbn [envs].
    unfold Jq.pipe at 1 2. cbn [Jq.field Jq.lookup String.eqb Ascii.eqb Bool.eqb
                               Jq.for_each Jq.iterate_opt].
    rewrite app_nil_r. now rewrite for_each_items. }
  split; [exact Hrun|]. rewrite Hrun. cbn [fst]. clear Hrun.
  induction es as [|e es IH]; [reflexivity|].
  cbn [filter find]. destruct (e_key e =? "VITE_API_URL"); [reflexivity|exact IH].
Qed.

End ShFacts.

(** ** The claims at concrete inputs *)

(** A failed deployment of the branch is passed over, the READY one after
    it is returned. *)
Lemma checkExistingDeployment_first_match_witness :
  fst (checkExistingDeployment JS.ascii_toLowerCase
         (Sample.stub (Sample.listing [Sample.failed; Sample.ready])
            (Sample.variables []) (Fulfilled tt) (Fulfilled tt) Sample.only_new)
         Sample.client "prj_1" "feat" Sample.start)
  = Ret (Some "dpl_1").
Proof.
  destruct (checkExistingDeployment_first_match JS.ascii_toLowerCase
              (Sample.stub (Sample.listing [Sample.failed; Sample.ready])
                 (Sample.variables []) (Fulfilled tt) (Fulfilled tt) Sample.only_new)
              Sample.client "prj_1" "feat" [Sample.failed; Sample.ready]
              tt [] [] tt eq_refl) as (result & w' & Hrun & Hfirst & _).
  change Sample.start with (mkWorld tt (@nil (Stream * string)) (@nil Request)).
  rewrite Hrun. cbn [fst]. f_equal.
  apply (Hfirst [Sample.failed] Sample.ready [] eq_refl).
  - intros x [<-|[]] [_ [H|H]]; discriminate H.
  - split.
    + left. exists {| githubCommitRef := Some "feat" |}. now split.
    + now left.
Defined.

(** C1 as stated fails: the first (and only) qualifying deployment has an
    empty identifier, and the result is none, not that identifier. *)
Lemma checkExistingDeployment_empty_uid :
  Selectable JS.ascii_toLowerCase "feat" Sample.unnamed
  /\ fst (checkExistingDeployment JS.ascii_toLowerCase
            (Sample.stub (Sample.listing [Sample.unnamed])
               (Sample.variables []) (Fulfilled tt) (Fulfilled tt) Sample.only_new)
            Sample.client "prj_1" "feat" Sample.start)
     = Ret None
  /\ Ret (A:=option string) None <> Ret (Some (d_uid Sample.unnamed)).
Proof.
  split; [|split].
  - split.
    + right. exists "PR-Feat". split; [reflexivity|]. now exists "pr-", "".
    + now right.
  - reflexivity.
  - discriminate.
Qed.

Lemma getEnvVarId_first_match_witness :
  fst (getEnvVarId
         (Sample.stub (Sample.listing []) (Sample.variables [Sample.other_variable; Sample.api_url])
            (Fulfilled tt) (Fulfilled tt) Sample.only_new)
         Sample.client "prj_1" Sample.start)
  = Ret (Some "env_1").
Proof.
  destruct (getEnvVarId_first_match
              (Sample.stub (Sample.listing [])
                 (Sample.variables [Sample.other_variable; Sample.api_url])
                 (Fulfilled tt) (Fulfilled tt) Sample.only_new)
              Sample.client "prj_1" [Sample.other_variable; Sample.api_url]
              tt [] [] tt eq_refl) as (result & w' & Hrun & Hfirst & _).
  change Sample.start with (mkWorld tt (@nil (Stream * string)) (@nil Request)).
  rewrite Hrun. cbn [fst]. f_equal.
  apply (Hfirst [Sample.other_variable] Sample.api_url [] eq_refl).
  - intros x [<-|[]]. discriminate.
  - reflexivity.
Defined.

(** C8 as stated fails: the first record with the key has an empty
    identifier, and the result is none, not that identifier. *)
Lemma getEnvVarId_empty_id :
  e_key Sample.api_url_without_id = "VITE_API_URL"
  /\ fst (getEnvVarId
            (Sample.stub (Sample.listing [])
               (Sample.variables [Sample.api_url_without_id; Sample.api_url])
               (Fulfilled tt) (Fulfilled tt) Sample.only_new)
            Sample.client "prj_1" Sample.start)
     = Ret None
  /\ Ret (A:=option string) None <> Ret (Some (e_id Sample.api_url_without_id)).
Proof.
  split; [reflexivity|split; [reflexivity|discriminate]].
Qed.

(** Scenario E: no branch configured. *)
Lemma missing_configuration_aborts_witness :
  exists v w',
    main JS.ascii_toLowerCase
      (Sample.stub (Sample.listing [Sample.ready]) (Sample.variables [Sample.api_url])
         (Fulfilled tt) (Fulfilled tt) Sample.only_new)
      (Sample.env None) Sample.start = (Exit 1, w')
    /\ In v requiredVars
    /\ (Sample.env None v = None \/ Sample.env None v = Some "")
    /\ console w'
       = ([] ++ [(Stderr, error_line ("Missing required environment variable: " ++ v))])%list
    /\ calls w' = []
    /\ platform w' = tt.
Proof.
  apply (missing_configuration_aborts JS.ascii_toLowerCase
           (Sample.stub (Sample.listing [Sample.ready]) (Sample.variables [Sample.api_url])
              (Fulfilled tt) (Fulfilled tt) Sample.only_new)
           (Sample.env None) tt [] []).
  exists "FE_BRANCH". split; [simpl; tauto | left; reflexivity].
Defined.

(** The deployment listing is refused. *)
Lemma lookup_failure_aborts_witness :
  exists w',
    main JS.ascii_toLowerCase
      (Sample.stub (Rejected "Error: 403") (Sample.variables [Sample.api_url])
         (Fulfilled tt) (Fulfilled tt) Sample.only_new)
      Sample.valid_env Sample.start = (Exit 1, w')
    /\ calls w' = [GetDeployments "prj_1" 50]
    /\ last (console w') (Stdout, "")
       = (Stderr, error_line "Failed to fetch deployments: Error: 403").
Proof.
  exact (proj1 (lookup_failure_aborts JS.ascii_toLowerCase
                  (Sample.stub (Rejected "Error: 403") (Sample.variables [Sample.api_url])
                     (Fulfilled tt) (Fulfilled tt) Sample.only_new)
                  Sample.valid_env tt [] [] eq_refl)
           "Error: 403" tt eq_refl).
Defined.

(** The create of the variable is refused. *)
Lemma upsert_failure_aborts_witness :
  exists w',
    main JS.ascii_toLowerCase
      (Sample.stub (Sample.listing []) (Sample.variables [])
         (Rejected "Error: 403") (Fulfilled tt) Sample.only_new)
      Sample.valid_env Sample.start = (Exit 1, w')
    /\ calls w'
       = [GetDeployments "prj_1" 50;
          GetEnvironmentVariables "prj_1";
          CreateEnvironmentVariable "prj_1" (viteApiUrlBody Sample.url)]
    /\ last (console w') (Stdout, "")
       = (Stderr, error_line "Failed to update environment variable: Error: 403").
Proof.
  exact (upsert_failure_aborts JS.ascii_toLowerCase
           (Sample.stub (Sample.listing []) (Sample.variables [])
              (Rejected "Error: 403") (Fulfilled tt) Sample.only_new)
           Sample.valid_env tt [] [] {| deployments := Some [] |} tt {| envs := Some [] |} tt
           "Error: 403" tt eq_refl eq_refl eq_refl eq_refl).
Defined.

(** C2 as stated fails: the create of the variable is refused, the run
    ends with exit status 1 and never sends a deployment request. *)
Lemma upsert_failure_skips_deploy :
  let run :=
    main JS.ascii_toLowerCase
      (Sample.stub (Sample.listing [Sample.ready]) (Sample.variables [])
         (Rejected "Error: 403") (Fulfilled tt) Sample.only_new)
      Sample.valid_env Sample.start in
  fst run = Exit 1
  /\ calls (snd run)
     = [GetDeployments "prj_1" 50;
        GetEnvironmentVariables "prj_1";
        CreateEnvironmentVariable "prj_1" (viteApiUrlBody Sample.url)]
  /\ (forall body, ~ In (CreateDeployment body) (calls (snd run))).
Proof.
  split; [reflexivity|split; [reflexivity|]].
  intros body [H|[H|[H|[]]]]; discriminate H.
Qed.

(** Scenario D: the redeploy is refused and the create-new request is
    fulfilled. *)
Lemma redeploy_failure_falls_back_witness :
  exists w' printed,
    main JS.ascii_toLowerCase
      (Sample.stub (Sample.listing [Sample.ready]) (Sample.variables [Sample.api_url])
         (Fulfilled tt) (Fulfilled tt) Sample.only_new)
      Sample.valid_env Sample.start = (Ret tt, w')
    /\ calls w'
       = [GetDeployments "prj_1" 50;
          GetEnvironmentVariables "prj_1";
          EditEnvironmentVariable "prj_1" "env_1" (viteApiUrlBody Sample.url);
          CreateDeployment (Redeploy "dpl_1" "preview");
          CreateDeployment Sample.new_deployment]
    /\ console w' = ([] ++ printed)%list
    /\ Forall (fun line => fst line = Stdout) printed.
Proof.
  exact (proj1 (redeploy_failure_falls_back JS.ascii_toLowerCase
                  (Sample.stub (Sample.listing [Sample.ready])
                     (Sample.variables [Sample.api_url])
                     (Fulfilled tt) (Fulfilled tt) Sample.only_new)
                  Sample.valid_env tt [] []
                  {| deployments := Some [Sample.ready] |} tt "dpl_1"
                  {| envs := Some [Sample.api_url] |} tt tt "Error: redeploy refused" tt
                  eq_refl eq_refl eq_refl eq_refl eq_refl eq_refl)
           {| r_url := Some "pr-feat.vercel.app"; r_uid := Some "dpl_2" |} tt eq_refl).
Defined.

(** The listing response has no [deployments] field. *)
Lemma absent_deployments_creates_new_witness :
  calls (snd (main JS.ascii_toLowerCase
                (Sample.stub (Fulfilled {| deployments := None |}) (Sample.variables [])
                   (Fulfilled tt) (Fulfilled tt) Sample.only_new)
                Sample.valid_env Sample.start))
  = [GetDeployments "prj_1" 50;
     GetEnvironmentVariables "prj_1";
     CreateEnvironmentVariable "prj_1" (viteApiUrlBody Sample.url);
     CreateDeployment Sample.new_deployment].
Proof.
  exact (proj1 (proj2 (absent_deployments_creates_new JS.ascii_toLowerCase
                  (Sample.stub (Fulfilled {| deployments := None |}) (Sample.variables [])
                     (Fulfilled tt) (Fulfilled tt) Sample.only_new)
                  Sample.valid_env tt [] [] tt eq_refl eq_refl))
           {| envs := Some [] |} tt tt eq_refl eq_refl).
Defined.

Lemma derived_names_witness :
  exists config,
    getConfig Sample.valid_env Sample.start = (Ret config, Sample.start)
    /\ branch config = "feat"
    /\ targetApiUrl config = "https://api.pr-feat.deploy-preview.mrdibre.com".
Proof.
  exact (proj1 (derived_names
                  (Sample.stub (Sample.listing []) (Sample.variables [])
                     (Fulfilled tt) (Fulfilled tt) Sample.only_new)
                  Sample.valid_env "feat" eq_refl eq_refl) Sample.start).
Defined.

(** C10 as stated fails: the listing has no [deployments] field and
    [checkExistingDeployment] returns none, but the variable listing is
    refused, so the run ends with exit status 1 after two requests and
    never reaches the create-new request. *)
Lemma absent_deployments_run_stops_at_lookup :
  let vercel_com :=
    Sample.stub (Fulfilled {| deployments := None |}) (Rejected "Error: 403")
      (Fulfilled tt) (Fulfilled tt) Sample.only_new in
  let run := main JS.ascii_toLowerCase vercel_com Sample.valid_env Sample.start in
  fst (checkExistingDeployment JS.ascii_toLowerCase vercel_com Sample.client
         "prj_1" "feat" Sample.start) = Ret None
  /\ fst run = Exit 1
  /\ calls (snd run) = [GetDeployments "prj_1" 50; GetEnvironmentVariables "prj_1"]
  /\ (forall body, ~ In (CreateDeployment body) (calls (snd run))).
Proof.
  split; [reflexivity|split; [reflexivity|split; [reflexivity|]]].
  intros body [H|[H|[]]]; discriminate H.
Qed.

(** Two runs in a row against a project without the variable: the first
    creates it, the second edits the record the first one created. *)
Lemma updateEnvVar_upsert_witness :
  let first := upsertStep Sample.store Sample.client "prj_1" Sample.url (mkWorld [] [] []) in
  let second := upsertStep Sample.store Sample.client "prj_1" Sample.url (snd first) in
  calls (snd first)
  = [GetEnvironmentVariables "prj_1";
     CreateEnvironmentVariable "prj_1" (viteApiUrlBody Sample.url)]
  /\ calls (snd second)
     = (calls (snd first)
        ++ [GetEnvironmentVariables "prj_1";
            EditEnvironmentVariable "prj_1" "env_VITE_API_URL" (viteApiUrlBody Sample.url)])%list
  /\ platform (snd second)
     = [{| e_id := "env_VITE_API_URL"; e_key := "VITE_API_URL"; e_value := Sample.url |}].
Proof.
  intros first second. split; [reflexivity|split; [|reflexivity]].
  exact (proj2 (updateEnvVar_upsert Sample.store Sample.client "prj_1" Sample.url)
           (mkWorld [] [] []) (snd first) []
           {| e_id := "env_VITE_API_URL"; e_key := "VITE_API_URL"; e_value := Sample.url |} []
           (platform (snd first))
           eq_refl eq_refl (fun x (H : In x []) => match H with end) eq_refl
           (fun H : "env_VITE_API_URL" = "" => eq_ind "env_VITE_API_URL"
              (fun s => match s with EmptyString => False | String _ _ => True end)
              I "" H)).
Defined.

(** C6 as stated fails: on a platform whose created records carry no
    identifier the first run creates the variable, the second run finds the
    record but no identifier, creates again, and the project ends with two
    records for the key. *)
Lemma second_run_creates_again :
  let first :=
    upsertStep store_without_ids Sample.client "prj_1" Sample.url (mkWorld [] [] []) in
  let second :=
    upsertStep store_without_ids Sample.client "prj_1" Sample.url (snd first) in
  fst first = Ret tt
  /\ fst second = Ret tt
  /\ calls (snd second)
     = [GetEnvironmentVariables "prj_1";
        CreateEnvironmentVariable "prj_1" (viteApiUrlBody Sample.url);
        GetEnvironmentVariables "prj_1";
        CreateEnvironmentVariable "prj_1" (viteApiUrlBody Sample.url)]
  /\ map e_key (platform (snd second)) = ["VITE_API_URL"; "VITE_API_URL"].
Proof. repeat split; reflexivity. Qed.

(** C9: on one READY deployment of the branch the TypeScript selection
    returns its identifier, while the jq program of the shell script
    selects nothing, whatever the regular-expression matcher does: the
    condition of its first [select] pipes a boolean into [test]. *)
Theorem shell_selection_differs :
  fst (checkExistingDeployment JS.ascii_toLowerCase
         (Sample.stub (Sample.listing [Sample.ready]) (Sample.variables [])
            (Fulfilled tt) (Fulfilled tt) Sample.only_new)
         Sample.client "prj_1" "feat" Sample.start)
  = Ret (Some "dpl_1")
  /\ forall regex_test,
       Jq.check_existing_deployment regex_test
         (Jq.json_of_response {| deployments := Some [Sample.ready] |}) "feat"
       = None.
Proof.
  split; [reflexivity|].
  intros regex_test. unfold Jq.check_existing_deployment.
  now rewrite JqFacts.jq_emits_nothing.
Qed.

(** With the parentheses the same model of jq selects the deployment, so
    the empty selection above comes from the precedence of [|] alone. *)
Example parenthesised_jq_selects regex_test :
  hd_error (fst (Jq.parenthesised_jq regex_test "feat"
                   (Jq.json_of_response {| deployments := Some [Sample.failed; Sample.ready] |})))
  = Some (Jq.JString "dpl_1").
Proof. reflexivity. Qed.

(** ** The scenarios of the specification *)

(** Scenario A: no deployment listed, a new one is created for the branch. *)
Example scenario_A :
  let run :=
    main JS.ascii_toLowerCase
      (Sample.stub (Sample.listing []) (Sample.variables [Sample.api_url])
         (Fulfilled tt) (Fulfilled tt) (Sample.deployed_at "pr-feat.vercel.app"))
      Sample.valid_env Sample.start in
  fst run = Ret tt
  /\ calls (snd run)
     = [GetDeployments "prj_1" 50;
        GetEnvironmentVariables "prj_1";
        EditEnvironmentVariable "prj_1" "env_1" (viteApiUrlBody Sample.url);
        CreateDeployment Sample.new_deployment].
Proof. split; reflexivity. Qed.

(** Scenario B: a READY deployment of the branch is redeployed by reference. *)
Example scenario_B :
  let run :=
    main JS.ascii_toLowerCase
      (Sample.stub (Sample.listing [Sample.ready]) (Sample.variables [Sample.api_url])
         (Fulfilled tt) (Fulfilled tt) (Sample.deployed_at "pr-feat.vercel.app"))
      Sample.valid_env Sample.start in
  fst run = Ret tt
  /\ calls (snd run)
     = [GetDeployments "prj_1" 50;
        GetEnvironmentVariables "prj_1";
        EditEnvironmentVariable "prj_1" "env_1" (viteApiUrlBody Sample.url);
        CreateDeployment (Redeploy "dpl_1" "preview")].
Proof. split; reflexivity. Qed.

(** Scenario C: a deployment of the branch in state ERROR is not selected. *)
Example scenario_C :
  let run :=
    main JS.ascii_toLowerCase
      (Sample.stub (Sample.listing [Sample.failed]) (Sample.variables [Sample.api_url])
         (Fulfilled tt) (Fulfilled tt) (Sample.deployed_at "pr-feat.vercel.app"))
      Sample.valid_env Sample.start in
  fst run = Ret tt
  /\ calls (snd run)
     = [GetDeployments "prj_1" 50;
        GetEnvironmentVariables "prj_1";
        EditEnvironmentVariable "prj_1" "env_1" (viteApiUrlBody Sample.url);
        CreateDeployment Sample.new_deployment].
Proof. split; reflexivity. Qed.

(** ** Further properties at concrete inputs *)

Lemma main_returns_after_deployment_witness :
  exists before body,
    calls (snd (main JS.ascii_toLowerCase empty_platform Sample.valid_env Sample.start))
    = (calls Sample.start ++ before ++ [CreateDeployment body])%list.
Proof.
  exact (main_returns_after_deployment JS.ascii_toLowerCase empty_platform
           Sample.valid_env Sample.start eq_refl).
Defined.

(** With only the token set, the project identifier is reported and the
    two variables after it are not. *)
Lemma validateEnvironment_reports_first_missing_witness :
  validateEnvironment token_only_env Sample.start
  = (Exit 1,
     mkWorld tt
       [(Stderr, error_line "Missing required environment variable: VERCEL_PROJECT_ID")]
       []).
Proof.
  apply (validateEnvironment_reports_first_missing (P:=unit) token_only_env
           ["VERCEL_TOKEN"] "VERCEL_PROJECT_ID" ["VERCEL_ORG_ID"; "FE_BRANCH"] tt [] []).
  - reflexivity.
  - intros x [<-|[]]. reflexivity.
  - reflexivity.
Defined.

Lemma getConfig_fields_witness :
  Sample.valid_env "VERCEL_TOKEN" = Some "tok"
  /\ Sample.valid_env "FE_BRANCH" = Some "feat"
  /\ targetApiUrl (config_of_env Sample.valid_env)
     = "https://api.pr-feat.deploy-preview.mrdibre.com".
Proof.
  destruct (getConfig_fields Sample.valid_env Sample.start Sample.start
              (config_of_env Sample.valid_env) eq_refl)
    as (_ & Htoken & _ & _ & _ & _ & _ & Hbranch & _ & Hurl).
  exact (conj Htoken (conj Hbranch Hurl)).
Defined.

Lemma checkExistingDeployment_sound_witness :
  "dpl_1" <> ""
  /\ exists r L d p',
       deployments_getDeployments ready_platform Sample.client "prj_1" 50
         (platform Sample.start) = (Fulfilled r, p')
       /\ deployments r = Some L
       /\ In d L
       /\ d_uid d = "dpl_1"
       /\ Selectable JS.ascii_toLowerCase "feat" d.
Proof.
  exact (checkExistingDeployment_sound JS.ascii_toLowerCase ready_platform
           Sample.client "prj_1" "feat" Sample.start "dpl_1"
           (mkWorld tt [checkingLine] [GetDeployments "prj_1" 50]) eq_refl).
Defined.

Lemma getEnvVarId_sound_witness :
  "env_1" <> ""
  /\ exists r es e p',
       projects_getEnvironmentVariables ready_platform Sample.client "prj_1"
         (platform Sample.start) = (Fulfilled r, p')
       /\ envs r = Some es
       /\ In e es
       /\ e_id e = "env_1"
       /\ e_key e = "VITE_API_URL".
Proof.
  exact (getEnvVarId_sound ready_platform Sample.client "prj_1" Sample.start "env_1"
           (mkWorld tt [fetchingLine] [GetEnvironmentVariables "prj_1"]) eq_refl).
Defined.

Lemma redeploy_success_witness :
  exists w' printed,
    main JS.ascii_toLowerCase ready_platform Sample.valid_env Sample.start = (Ret tt, w')
    /\ platform w' = tt
    /\ calls w'
       = [GetDeployments "prj_1" 50;
          GetEnvironmentVariables "prj_1";
          EditEnvironmentVariable "prj_1" "env_1" (viteApiUrlBody Sample.url);
          CreateDeployment (Redeploy "dpl_1" "preview")]
    /\ console w' = ([] ++ printed)%list
    /\ Forall on_stdout printed.
Proof.
  exact (redeploy_success JS.ascii_toLowerCase ready_platform Sample.valid_env tt [] []
           {| deployments := Some [Sample.failed; Sample.ready] |} tt "dpl_1"
           {| envs := Some [Sample.other_variable; Sample.api_url] |} tt tt
           {| r_url := Some "pr-feat.vercel.app"; r_uid := Some "dpl_2" |} tt
           eq_refl eq_refl eq_refl eq_refl eq_refl eq_refl).
Defined.

Lemma create_new_ends_the_run_witness :
  exists w',
    main JS.ascii_toLowerCase empty_platform Sample.valid_env Sample.start = (Ret tt, w')
    /\ calls w'
       = [GetDeployments "prj_1" 50;
          GetEnvironmentVariables "prj_1";
          EditEnvironmentVariable "prj_1" "env_1" (viteApiUrlBody Sample.url);
          CreateDeployment Sample.new_deployment].
Proof.
  exact (proj1 (create_new_ends_the_run JS.ascii_toLowerCase empty_platform
                  Sample.valid_env tt [] []
                  {| deployments := Some [] |} tt
                  {| envs := Some [Sample.api_url] |} tt tt
                  eq_refl eq_refl eq_refl eq_refl eq_refl)
           {| r_url := Some "pr-feat.vercel.app"; r_uid := Some "dpl_2" |} tt eq_refl).
Defined.

(** A response without a URL. *)
Lemma createDeployment_fulfilled_returns_witness :
  exists w',
    createDeployment
      (Sample.stub (Sample.listing []) (Sample.variables []) (Fulfilled tt) (Fulfilled tt)
         (fun _ => Fulfilled {| r_url := None; r_uid := Some "dpl_2" |}))
      Sample.client "prj_1" "feat" Sample.start = (Ret tt, w')
    /\ console w'
       = [(Stdout, info_line "Creating new deployment...");
          (Stdout, info_line "Deployment triggered successfully")].
Proof.
  destruct (createDeployment_fulfilled_returns
              (Sample.stub (Sample.listing []) (Sample.variables []) (Fulfilled tt)
                 (Fulfilled tt)
                 (fun _ => Fulfilled {| r_url := None; r_uid := Some "dpl_2" |}))
              Sample.client "prj_1" "feat" tt [] []
              {| r_url := None; r_uid := Some "dpl_2" |} tt eq_refl)
    as (w' & Hrun & Hsoft & _).
  exists w'. split; [exact Hrun|]. apply Hsoft. now left.
Defined.

(** Against a remote side that lists nothing, the script still patches and
    redeploys. *)
Lemma script_always_redeploys_witness :
  map Sh.method (Sh.curls (snd (Sh.sample_script Sample.valid_env Sh.sample_start)))
  = ["GET"; "GET"; "PATCH"; "POST"].
Proof.
  destruct (ShFacts.script_always_redeploys Sh.sample_curl Sh.sample_echo Sh.sample_echo_e
              true Sh.sample_inputs Sh.sample_print Sh.sample_print Sh.sample_regex
              Sample.valid_env Sh.sample_start eq_refl)
    as (s' & id & Hrun & _ & _ & Hcurls).
  - intros var [<-|[<-|[<-|[<-|[]]]]]; discriminate.
  - intros message. eexists. reflexivity.
  - unfold Sh.sample_script. rewrite Hrun. cbn [snd]. rewrite Hcurls. reflexivity.
Defined.

Lemma script_missing_variable_witness :
  Sh.sample_script token_only_env Sh.sample_start
  = (Sh.Exited 1,
     Sh.mkShell tt
       (Sh.failure Sh.sample_echo_e
          "Missing required environment variable: VERCEL_PROJECT_ID")
       []).
Proof.
  apply (ShFacts.script_missing_variable Sh.sample_curl Sh.sample_echo Sh.sample_echo_e
           true Sh.sample_inputs Sh.sample_print Sh.sample_print Sh.sample_regex
           token_only_env ["VERCEL_TOKEN"] "VERCEL_PROJECT_ID"
           ["VERCEL_ORG_ID"; "FE_BRANCH"] Sh.sample_start).
  - reflexivity.
  - intros x [<-|[]]. discriminate.
  - reflexivity.
Defined.

(** A run of the sample script, evaluated: what the user sees never names a
    deployment identifier, and the redeploy refers to the log line. *)
Example sample_script_run :
  let run := Sh.sample_script Sample.valid_env Sh.sample_start in
  fst run = Sh.Done tt
  /\ option_map Sh.url (nth_error (Sh.curls (snd run)) 2)
     = Some ("https://api.vercel.com/v9/projects/prj_1/env/"
               ++ Sh.captured
                    (Sh.info Sh.sample_echo_e
                       "Fetching VITE_API_URL environment variable ID...")).
Proof. split; vm_compute; reflexivity. Qed.
